(** * Step: the publish drivers of StepRepl and AvaloniaRepl

    A shallow embedding of [StepRepl/publish.py] and
    [AvaloniaRepl/publish.py].  Both scripts are orchestration code: they
    print, start external processes and copy directory trees.  The embedding
    threads an explicit state (the module global [current_platform], the
    directory tree below the working directory and the log of observable
    effects) through a small state-and-exception monad; whatever the
    external tools do is supplied by the [Host]. *)

From stdpp Require Import gmap strings list fin_maps.
From Stdlib Require Import ZArith Ascii.

Local Open Scope Z_scope.
Local Open Scope string_scope.
Local Open Scope list_scope.

(** ** Directory trees

    The part of the file system the scripts touch lies below the working
    directory.  A directory maps entry names to nodes; names are unique by
    construction.  Regular files and directories are modelled; links,
    permissions and time stamps are not. *)

#[warnings="-register-all"]
Inductive node :=
  | File (data : string)
  | Dir (entries : gmap string node).

Abbreviation dir := (gmap string node).

Definition is_dir (o : option node) : bool :=
  match o with
  | Some (Dir _) => true
  | _ => false
  end.

(** Path strings are resolved component by component; [/] separates
    components and empty components are skipped, as the operating system
    does for relative paths.  Components [.] and [..] are not resolved:
    the function is exact for paths without them, which is what the scripts
    build from their platform names. *)
Fixpoint split_from (acc : string) (s : string) : list string :=
  match s with
  | EmptyString => if String.eqb acc "" then [] else [acc]
  | String c s' =>
      if Ascii.eqb c "/"%char
      then (if String.eqb acc "" then split_from "" s' else acc :: split_from "" s')
      else split_from (acc +:+ String c EmptyString) s'
  end.

Definition split_path (p : string) : list string := split_from "" p.

Fixpoint lookup_path (m : dir) (p : list string) : option node :=
  match p with
  | [] => Some (Dir m)
  | k :: p' =>
      match m !! k with
      | Some (Dir m') => lookup_path m' p'
      | Some (File c) => match p' with [] => Some (File c) | _ => None end
      | None => None
      end
  end.

(** [shutil.copy2(src, dst)] of one regular file whose name is [name]: when
    [dst] is an existing directory the file is written inside it under its
    own name; an existing file is overwritten.  Opening a directory for
    writing fails.  The boolean tells whether the copy succeeded.

    [shutil.copytree(src, dst, dirs_exist_ok=True)] of a directory: creates
    [dst] when it is missing, accepts an existing directory, fails on an
    existing file; then copies every entry, carrying on after a failed entry
    and reporting the failure at the end. *)
Fixpoint copy_entry (name : string) (s : node) (d : option node) : node * bool :=
  match s with
  | File c =>
      match d with
      | Some (Dir dd) =>
          match dd !! name with
          | Some (Dir _) => (Dir dd, false)
          | _ => (Dir (<[name := File c]> dd), true)
          end
      | _ => (File c, true)
      end
  | Dir sm =>
      let copy_into (dd : dir) : node * bool :=
        let r := map_fold (λ k s' (acc : dir * bool),
                             let e := copy_entry k s' (acc.1 !! k) in
                             (<[k := e.1]> acc.1, acc.2 && e.2))
                          (dd, true) sm in
        (Dir r.1, r.2) in
      match d with
      | Some (File x) => (File x, false)
      | Some (Dir dd) => copy_into dd
      | None => copy_into ∅
      end
  end.

(** The loop [for srcentry in entries] of [copytree], run on the entries
    [sm] of the source against the entries [dm] of the destination. *)
Definition copy_dir (sm dm : dir) : dir * bool :=
  map_fold (λ k s' (acc : dir * bool),
              let e := copy_entry k s' (acc.1 !! k) in
              (<[k := e.1]> acc.1, acc.2 && e.2))
           (dm, true) sm.

(** [os.makedirs(dst, exist_ok=True)] followed by an action on the directory
    reached: missing directories along [p] are created, a regular file on
    the way makes [makedirs] fail ([None]) before anything is written. *)
Fixpoint into_dir (p : list string) (f : dir → dir * bool) (m : dir)
  : option (dir * bool) :=
  match p with
  | [] => Some (f m)
  | k :: p' =>
      match m !! k with
      | Some (File _) => None
      | Some (Dir m') =>
          match into_dir p' f m' with
          | Some (m'', ok) => Some (<[k := Dir m'']> m, ok)
          | None => None
          end
      | None =>
          match into_dir p' f ∅ with
          | Some (m'', ok) => Some (<[k := Dir m'']> m, ok)
          | None => None
          end
      end
  end.

(** Exceptions the scripts can end with. *)
Inductive exn :=
  | SystemExit (code : Z)
  | CalledProcessError (returncode : Z) (cmd : string)
  | OSError
  | ShutilError
  | IndexError.

Inductive result (A : Type) :=
  | Ok (a : A)
  | Raised (e : exn).
Arguments Ok {A} a.
Arguments Raised {A} e.

(** [shutil.copytree(src, dst, dirs_exist_ok=True)] on the tree [root] of
    the working directory.  [os.scandir(src)] fails unless [src] is a
    directory; a failure of [makedirs] leaves the tree as it was; failures
    of single entries leave a partial copy and raise [shutil.Error].  The
    source is read as it was before the call, which is what Python observes
    whenever neither path lies inside the other. *)
Definition copytree (src dst : list string) (root : dir) : result unit * dir :=
  match lookup_path root src with
  | Some (Dir sm) =>
      match into_dir dst (copy_dir sm) root with
      | Some (root', true) => (Ok tt, root')
      | Some (root', false) => (Raised ShutilError, root')
      | None => (Raised OSError, root)
      end
  | _ => (Raised OSError, root)
  end.

(** ** Observable effects and the host *)

(** What a run does to the outside world, in order.  A process event records
    the status the process ended with. *)
Inductive event :=
  | Print (line : string)
  | System (cmd : string) (status : Z)
  | Run (cmd : string) (cwd : string) (returncode : Z)
  | CopyTree (src dst : string).

(** The machine the script runs on: [os.sys.platform], [os.getcwd()], the
    two [os.path] functions the scripts use (they belong to [posixpath] or
    [ntpath] depending on the host), and what the external commands do: the
    status they end with and the directory tree they leave behind.
    [run_process cmd cwd] stands for the command started by
    [subprocess.run(cmd, shell=True, cwd=cwd)], [run_shell cmd] for the one
    started by [os.system(cmd)]. *)
Record Host := {
  sys_platform : string;
  getcwd : string;
  path_dirname : string → string;
  path_join : string → string → string;
  run_process : string → string → dir → Z * dir;
  run_shell : string → dir → Z * dir
}.

(** The interpreter state: the module global [current_platform], the tree
    below the working directory, and the effects so far. *)
Record State := {
  current_platform : string;
  fs : dir;
  log : list event
}.

Definition with_platform (p : string) (st : State) : State :=
  {| current_platform := p; fs := fs st; log := log st |}.

Definition emit (e : event) (root : dir) (st : State) : State :=
  {| current_platform := current_platform st; fs := root; log := log st ++ [e] |}.

(** ** The monad of statements: state plus exceptions *)

Definition Py (A : Type) : Type := State → result A * State.

#[global] Instance Py_ret : MRet Py := λ A a st, (Ok a, st).

#[global] Instance Py_bind : MBind Py := λ A B f m st,
  match m st with
  | (Ok a, st') => f a st'
  | (Raised e, st') => (Raised e, st')
  end.

Definition raise {A} (e : exn) : Py A := λ st, (Raised e, st).

Definition read_current_platform : Py string := λ st, (Ok (current_platform st), st).

Definition assign_current_platform (p : string) : Py unit :=
  λ st, (Ok tt, with_platform p st).

(** [for x in l: body x] *)
Fixpoint for_each {A} (l : list A) (body : A → Py unit) : Py unit :=
  match l with
  | [] => mret tt
  | x :: l' => body x;; for_each l' body
  end.

(** [print(s)] *)
Definition print (s : string) : Py unit :=
  λ st, (Ok tt, emit (Print s) (fs st) st).

(** [os.sys.exit(code)] raises [SystemExit]. *)
Definition sys_exit {A} (code : Z) : Py A := raise (SystemExit code).

(** [os.sys.argv[i]] *)
Definition argv_at (argv : list string) (i : nat) : Py string :=
  match argv !! i with
  | Some a => mret a
  | None => raise IndexError
  end.

(** [x in l] on strings *)
Definition str_in (x : string) (l : list string) : bool :=
  existsb (String.eqb x) l.

Section Primitives.
Variable h : Host.

(** [os.system(cmd)]: waits for the command and returns its status. *)
Definition os_system (cmd : string) : Py Z :=
  λ st, let r := run_shell h cmd (fs st) in
        (Ok r.1, emit (System cmd r.1) r.2 st).

(** [subprocess.run(cmd, shell=True, cwd=cwd, check=True)]: waits for the
    command; a non-zero return code raises [CalledProcessError]. *)
Definition subprocess_run (cmd cwd : string) : Py unit :=
  λ st, let r := run_process h cmd cwd (fs st) in
        let st' := emit (Run cmd cwd r.1) r.2 st in
        if (r.1 =? 0)%Z then (Ok tt, st')
        else (Raised (CalledProcessError r.1 cmd), st').

(** [shutil.copytree(src, dst, dirs_exist_ok=True)] *)
Definition shutil_copytree (src dst : string) : Py unit :=
  λ st, let r := copytree (split_path src) (split_path dst) (fs st) in
        (r.1, emit (CopyTree src dst) r.2 st).
End Primitives.

(** The exit status of the interpreter: [SystemExit] carries it, any other
    uncaught exception gives 1, running off the end of the script gives 0. *)
Definition exit_status (r : result unit) : Z :=
  match r with
  | Ok _ => 0
  | Raised (SystemExit c) => c
  | Raised _ => 1
  end.

(** A fresh interpreter on the tree [root]. *)
Definition initial (root : dir) : State :=
  {| current_platform := ""; fs := root; log := [] |}.

(** ** StepRepl/publish.py *)

Module StepRepl.

Definition platforms : list string := ["win-x64"; "linux-x64"; "osx-x64"].
Definition netver : string := "net8.0".

Definition help_text : string := "
    Usage: python publish.py [options]
    Script to run `dotnet publish` for a variety of platforms.
    Mac builds are packaged into an .app bundle, the resources for which are in the BuildAssets folder.
    
    Options:
    --help: Show this help message.
    --platforms: List available platforms.
    --target <platform>: Publish for a specific platform. Use 'all' to publish for all platforms.
    open: Open the output folder in the file explorer.".

(** The strings the functions build from [netver] and [current_platform]. *)
Definition open_command (p : string) : string :=
  "open ./bin/Release/" +:+ netver +:+ "/" +:+ p.

Definition start_path (p : string) : string :=
  "bin\Release\" +:+ netver +:+ "\" +:+ p.

Definition bundle_template : string := "BuildAssets/StepRepl.app".

Definition bundle_path (p : string) : string :=
  "bin/Release/" +:+ netver +:+ "/" +:+ p +:+ "/StepRepl.app".

Definition publish_path (p : string) : string :=
  "bin/Release/" +:+ netver +:+ "/" +:+ p +:+ "/publish".

Definition macos_path (p : string) : string :=
  "bin/Release/" +:+ netver +:+ "/" +:+ p +:+ "/StepRepl.app/Contents/MacOS".

Definition build_command (p : string) : string :=
  "dotnet publish StepRepl -r " +:+ p +:+
  " -p:IncludeNativeLibrariesForSelfExtract=true -p:PublishReadyToRunComposite=true -p:UseAppHost=true --self-contained true".

Definition codesign_warning : string :=
  "WARNING! This platform can't codesign app bundles and/or change the executable bit. Macs may complain or not run the app.".

Section Script.
Variable h : Host.

Definition open_output_folder : Py unit :=
  p ← read_current_platform;
  if String.eqb (sys_platform h) "darwin" then
    os_system h (open_command p);; mret tt
  else if String.eqb (sys_platform h) "win32" then
    os_system h ("start " +:+ path_join h (getcwd h) (start_path p));; mret tt
  else mret tt.

Definition create_app_bundle : Py unit :=
  print "Creating .app bundle...";;
  p ← read_current_platform;
  shutil_copytree bundle_template (bundle_path p);;
  p ← read_current_platform;
  shutil_copytree (publish_path p) (macos_path p);;
  if String.eqb (sys_platform h) "darwin" then
    print "Codesigning..."
  else
    print codesign_warning.

Definition do_build : Py unit :=
  p ← read_current_platform;
  print ("Publishing for " +:+ p +:+ "...");;
  let command := build_command p in
  let parent := path_dirname h (getcwd h) in
  subprocess_run h command parent;;
  p ← read_current_platform;
  print ("Publish completed for " +:+ p +:+ ".");;
  open_output_folder;;
  p ← read_current_platform;
  if String.prefix "osx" p then create_app_bundle else mret tt.

Definition is_target_flag (a : string) : bool :=
  String.eqb a "--target" || String.eqb a "-t" || String.eqb a "-p"
  || String.eqb a "--platform".

(** The module body: the global assignments, then the dispatch on
    [os.sys.argv]. *)
Definition main (argv : list string) : Py unit :=
  assign_current_platform "";;
  if (1 <? length argv)%nat then
    a1 ← argv_at argv 1;
    if String.eqb a1 "--help" then
      print help_text;;
      sys_exit 0
    else if String.eqb a1 "--platforms" then
      print "Available platforms:";;
      for_each platforms (λ platform, print ("  " +:+ platform));;
      print "Use '--target <platform>' to publish for a specific platform. '--target all' publishes for all platforms.";;
      sys_exit 0
    else if is_target_flag a1 then
      (if (length argv <? 3)%nat then
         print "Error: No target platform specified.";;
         sys_exit 1
       else mret tt);;
      target ← argv_at argv 2;
      (if negb (str_in target platforms) && negb (String.eqb target "all") then
         print ("Error: Invalid target platform '" +:+ target +:+
                "'. Use '--platforms' to list available platforms.");;
         sys_exit 1
       else mret tt);;
      (if String.eqb target "all" then
         for_each platforms (λ platform,
           assign_current_platform platform;;
           do_build)
       else
         assign_current_platform target;;
         do_build);;
      sys_exit 0
    else if String.eqb a1 "open" then
      open_output_folder;;
      sys_exit 0
    else mret tt
  else mret tt.

(** One run of the script in a fresh interpreter. *)
Definition execute (argv : list string) (root : dir) : result unit * State :=
  main argv (initial root).
End Script.

End StepRepl.

(** ** AvaloniaRepl/publish.py *)

Module AvaloniaRepl.

Definition platforms : list string :=
  ["win-x64"; "linux-x64"; "osx-arm64"; "osx-x64"].

Definition build_command (p : string) : string :=
  "dotnet publish AvaloniaRepl -r " +:+ p +:+
  " -p:PublishSingleFile=true --self-contained true".

Section Script.
Variable h : Host.

(** The module body; [os.sys.argv] is never read. *)
Definition main (argv : list string) : Py unit :=
  for_each platforms (λ platform,
    print ("Publishing for " +:+ platform +:+ "...");;
    let command := build_command platform in
    let parent := path_dirname h (getcwd h) in
    subprocess_run h command parent);;
  print "Publish completed for all platforms.".

Definition execute (argv : list string) (root : dir) : result unit * State :=
  main argv (initial root).
End Script.

End AvaloniaRepl.

(** ** [posixpath.dirname]

    [i = p.rfind('/') + 1; head = p[:i]]; unless [head] consists of slashes
    only, its trailing slashes are stripped. *)

Definition is_sep (c : ascii) : bool := Ascii.eqb c "/"%char.

(** [p[:p.rfind('/') + 1]] *)
Fixpoint upto_last_sep (p : string) : string :=
  match p with
  | EmptyString => EmptyString
  | String c p' =>
      let t := upto_last_sep p' in
      if is_sep c then String c t
      else match t with
           | EmptyString => EmptyString
           | _ => String c t
           end
  end.

(** [s == '/' * len(s)] *)
Fixpoint all_sep (s : string) : bool :=
  match s with
  | EmptyString => true
  | String c s' => is_sep c && all_sep s'
  end.

(** [s.rstrip('/')] *)
Fixpoint rstrip_sep (s : string) : string :=
  match s with
  | EmptyString => EmptyString
  | String c s' =>
      match rstrip_sep s' with
      | EmptyString => if is_sep c then EmptyString else String c EmptyString
      | t => String c t
      end
  end.

Definition posixpath_dirname (p : string) : string :=
  let head := upto_last_sep p in
  if negb (String.eqb head "") && negb (all_sep head) then rstrip_sep head
  else head.

(** ** Sample hosts and trees, for running the scripts *)

Definition tree_of (l : list (string * node)) : dir := list_to_map l.

(** [<[p := n]>] for a whole path, creating the directories on the way. *)
Fixpoint put_path (p : list string) (n : node) (m : dir) : dir :=
  match p with
  | [] => m
  | [k] => <[k := n]> m
  | k :: p' =>
      match m !! k with
      | Some (Dir m') => <[k := Dir (put_path p' n m')]> m
      | _ => <[k := Dir (put_path p' n ∅)]> m
      end
  end.

(** A project directory holding the bundle template. *)
Definition sample_tree : dir :=
  tree_of [("BuildAssets",
            Dir (tree_of [("StepRepl.app",
              Dir (tree_of [("Contents",
                Dir (tree_of [("Info.plist", File "plist");
                              ("MacOS", Dir (tree_of [("StepRepl", File "stale")]))]))]))]))].

(** A toolchain that writes one executable into the [publish] directory of
    the platform named last on the command line and succeeds. *)
Definition sample_dotnet (platform : string) (root : dir) : Z * dir :=
  (0, put_path ["bin"; "Release"; "net8.0"; platform; "publish"; "StepRepl"]
               (File ("exe for " +:+ platform)) root).

Definition platform_of_command (cmd : string) : string :=
  if String.eqb cmd (StepRepl.build_command "win-x64") then "win-x64"
  else if String.eqb cmd (StepRepl.build_command "linux-x64") then "linux-x64"
  else if String.eqb cmd (StepRepl.build_command "osx-x64") then "osx-x64"
  else "other".

Definition linux_host : Host :=
  {| sys_platform := "linux";
     getcwd := "/home/dev/Step/StepRepl";
     path_dirname := posixpath_dirname;
     path_join := λ a b, a +:+ "/" +:+ b;
     run_process := λ cmd _ root, sample_dotnet (platform_of_command cmd) root;
     run_shell := λ _ root, (0, root) |}.

(** The same machine with a toolchain that fails on the second platform. *)
Definition failing_host : Host :=
  {| sys_platform := "linux";
     getcwd := "/home/dev/Step/StepRepl";
     path_dirname := posixpath_dirname;
     path_join := λ a b, a +:+ "/" +:+ b;
     run_process := λ cmd _ root,
       if String.eqb (platform_of_command cmd) "linux-x64" then (134, root)
       else sample_dotnet (platform_of_command cmd) root;
     run_shell := λ _ root, (0, root) |}.

Definition mac_host : Host :=
  {| sys_platform := "darwin";
     getcwd := "/Users/dev/Step/StepRepl";
     path_dirname := posixpath_dirname;
     path_join := λ a b, a +:+ "/" +:+ b;
     run_process := λ cmd _ root, sample_dotnet (platform_of_command cmd) root;
     run_shell := λ _ root, (1, root) |}.


(** ** Vocabulary of the statements *)

(** The external builds of a log: command, working directory and return
    code of every [subprocess.run], in order. *)
Definition builds (l : list event) : list (string * string * Z) :=
  omap (λ e, match e with Run cmd cwd rc => Some (cmd, cwd, rc) | _ => None end) l.

(** Everything in a log that is not a [print]: processes started and trees
    copied. *)
Definition is_print (e : event) : bool :=
  match e with Print _ => true | _ => false end.

Definition effects (l : list event) : list event :=
  filter (λ e, is_print e = false) l.

(** Where [copytree] puts the file found at [r] below the source: at [r]
    below the destination, or inside the directory that already has that
    path, under the file's own name. *)
Definition landing (root : dir) (dst r : list string) : list string :=
  if is_dir (lookup_path root (dst ++ r))
  then dst ++ r ++ [default "" (last r)]
  else dst ++ r.

(** The entries of the directory at [p], none when there is no directory. *)
Definition dir_at (m : dir) (p : list string) : dir :=
  match lookup_path m p with
  | Some (Dir d) => d
  | _ => ∅
  end.

(** The command [open_output_folder] hands to the shell for platform [p]:
    [open] on macOS, [start] on Windows, none on any other host. *)
Definition folder_command (h : Host) (p : string) : option string :=
  if String.eqb (sys_platform h) "darwin" then Some (StepRepl.open_command p)
  else if String.eqb (sys_platform h) "win32" then
    Some ("start " +:+ path_join h (getcwd h) (StepRepl.start_path p))
  else None.

(** The line [create_app_bundle] ends with. *)
Definition bundle_notice (h : Host) : string :=
  if String.eqb (sys_platform h) "darwin" then "Codesigning..."
  else StepRepl.codesign_warning.

(** [st] after further events that leave the tree [root]. *)
Definition extend (st : State) (evs : list event) (root : dir) : State :=
  {| current_platform := current_platform st; fs := root; log := log st ++ evs |}.

(** The state [open_output_folder] leaves. *)
Definition after_open (h : Host) (st : State) : State :=
  match folder_command h (current_platform st) with
  | Some cmd => extend st [System cmd (run_shell h cmd (fs st)).1]
                  (run_shell h cmd (fs st)).2
  | None => st
  end.


(** [m; os.sys.exit(code)]: the exit is reached when [m] raises nothing. *)
Definition exit_after {A} (code : Z) (r : result A * State) : result unit * State :=
  match r with
  | (Ok _, st') => (Raised (SystemExit code), st')
  | (Raised e, st') => (Raised e, st')
  end.


(** The first arguments the dispatch of StepRepl/publish.py knows. *)
Definition known_first_args : list string :=
  ["--help"; "--platforms"; "--target"; "-t"; "-p"; "--platform"; "open"].

(** A statement only ever appends to the log. *)
Definition grows {A} (m : Py A) : Prop :=
  ∀ st, ∃ evs, log (m st).2 = log st ++ evs.

(** The events of [create_app_bundle] when both copies succeed. *)
Definition bundle_events (h : Host) (p : string) : list event :=
  [Print "Creating .app bundle...";
   CopyTree StepRepl.bundle_template (StepRepl.bundle_path p);
   CopyTree (StepRepl.publish_path p) (StepRepl.macos_path p);
   Print (bundle_notice h)].

(** The events of [open_output_folder], [status] being what the shell
    command ended with. *)
Definition open_events (h : Host) (p : string) (status : Z) : list event :=
  match folder_command h p with
  | Some cmd => [System cmd status]
  | None => []
  end.

(** The events of one successful [do_build] for platform [p]. *)
Definition build_events (h : Host) (p : string) (status : Z) : list event :=
  [Print ("Publishing for " +:+ p +:+ "...");
   Run (StepRepl.build_command p) (path_dirname h (getcwd h)) 0;
   Print ("Publish completed for " +:+ p +:+ ".")]
  ++ open_events h p status
  ++ (if String.prefix "osx" p then bundle_events h p else []).

(** The shell commands of a log. *)
Definition shell_commands (l : list event) : list string :=
  omap (λ e, match e with System cmd _ => Some cmd | _ => None end) l.

(** [s] contains a slash; [s] ends with a slash. *)
Fixpoint has_sep (s : string) : bool :=
  match s with
  | EmptyString => false
  | String c s' => is_sep c || has_sep s'
  end.

Fixpoint ends_with_sep (s : string) : bool :=
  match s with
  | EmptyString => false
  | String c EmptyString => is_sep c
  | String _ s' => ends_with_sep s'
  end.

(** The state of a successful [do_build] when post-processing starts: the
    build has ended with 0 and left its tree, the folder has been opened. *)
Definition built_state (h : Host) (st : State) : State :=
  let p := current_platform st in
  let b := run_process h (StepRepl.build_command p) (path_dirname h (getcwd h)) (fs st) in
  after_open h
    (extend st [Print ("Publishing for " +:+ p +:+ "...");
                Run (StepRepl.build_command p) (path_dirname h (getcwd h)) 0;
                Print ("Publish completed for " +:+ p +:+ ".")] b.2).

(** Sample states: a fresh interpreter about to build [osx-x64] in the
    sample project, and the same after the build on the Linux host. *)
Definition sample_start : State := with_platform "osx-x64" (initial sample_tree).
Definition sample_built : State := built_state linux_host sample_start.

(** The tree copies of a log: source and destination of every
    [shutil.copytree], in order. *)
Definition copies (l : list event) : list (string * string) :=
  omap (λ e, match e with CopyTree src dst => Some (src, dst) | _ => None end) l.

(** Events that are lines printed or external builds. *)
Definition print_or_run (e : event) : bool :=
  match e with
  | Print _ | Run _ _ _ => true
  | _ => false
  end.

(** * Properties *)

(** ** Copying directory trees *)

Lemma copy_entry_dir k sm d :
  copy_entry k (Dir sm) d =
  match d with
  | Some (File x) => (File x, false)
  | Some (Dir dd) => (Dir (copy_dir sm dd).1, (copy_dir sm dd).2)
  | None => (Dir (copy_dir sm ∅).1, (copy_dir sm ∅).2)
  end.
Proof. by destruct d as [[]|]. Qed.

(** The loop touches each name of the source once: the entry it leaves under
    a name depends on the source and destination entries of that name only,
    and the loop succeeds when every single copy does. *)
Lemma copy_dir_spec sm dm :
  (∀ k, (copy_dir sm dm).1 !! k =
        match sm !! k with
        | Some s => Some (copy_entry k s (dm !! k)).1
        | None => dm !! k
        end) ∧
  ((copy_dir sm dm).2 = true ↔
   ∀ k s, sm !! k = Some s → (copy_entry k s (dm !! k)).2 = true).
Proof.
  unfold copy_dir.
  apply (map_fold_weak_ind (λ (r : dir * bool) (m : dir),
    (∀ k, r.1 !! k = match m !! k with
                     | Some s => Some (copy_entry k s (dm !! k)).1
                     | None => dm !! k
                     end) ∧
    (r.2 = true ↔ ∀ k s, m !! k = Some s → (copy_entry k s (dm !! k)).2 = true))).
  - split; [intros k; by rewrite lookup_empty|].
    split; [intros _ k s; by rewrite lookup_empty | done].
  - intros i x m r Hi [Hlook Hok]. cbn [fst snd].
    assert (Hri : r.1 !! i = dm !! i) by (by rewrite Hlook, Hi).
    rewrite Hri. split.
    + intros k. destruct (decide (i = k)) as [->|Hne].
      * by rewrite !lookup_insert_eq.
      * rewrite !lookup_insert_ne by done. apply Hlook.
    + rewrite andb_true_iff, Hok. split.
      * intros [Hm Hx] k s. destruct (decide (i = k)) as [->|Hne].
        -- rewrite lookup_insert_eq. by intros [= <-].
        -- rewrite lookup_insert_ne by done. apply Hm.
      * intros Hall. split.
        -- intros k s Hk. apply Hall. rewrite lookup_insert_ne; [done|].
           intros ->. by rewrite Hi in Hk.
        -- apply Hall. by rewrite lookup_insert_eq.
Qed.

Lemma copy_dir_lookup sm dm k :
  (copy_dir sm dm).1 !! k =
  match sm !! k with
  | Some s => Some (copy_entry k s (dm !! k)).1
  | None => dm !! k
  end.
Proof. apply copy_dir_spec. Qed.

Lemma copy_dir_ok sm dm k s :
  (copy_dir sm dm).2 = true → sm !! k = Some s →
  (copy_entry k s (dm !! k)).2 = true.
Proof. intros Hok. by apply copy_dir_spec. Qed.

Lemma lookup_path_app m p q m' :
  lookup_path m p = Some (Dir m') → lookup_path m (p ++ q) = lookup_path m' q.
Proof.
  revert m. induction p as [|k p IH]; intros m; cbn.
  - by intros [= ->].
  - destruct (m !! k) as [[c|d]|]; [|by apply IH|done].
    by destruct p.
Qed.

Lemma lookup_path_app_None m p q :
  lookup_path m p = None → lookup_path m (p ++ q) = None.
Proof.
  revert m. induction p as [|k p IH]; intros m; cbn; [done|].
  destruct (m !! k) as [[c|d]|]; [|by apply IH|done].
  destruct p; [done|]. done.
Qed.

Lemma lookup_path_empty p : p ≠ [] → lookup_path ∅ p = None.
Proof. destruct p; [done|]. intros _. cbn. by rewrite lookup_empty. Qed.

Lemma lookup_path_snoc_file m p c q :
  lookup_path m p = Some (File c) → q ≠ [] → lookup_path m (p ++ q) = None.
Proof.
  revert m. induction p as [|k p IH]; intros m; cbn; [done|].
  destruct (m !! k) as [[c'|d]|]; [| by apply IH | done].
  destruct p; [|done]. intros _ Hq. by destruct q.
Qed.

(** A successful loop puts every file of the source below the destination. *)
Lemma copy_dir_file r : ∀ sm dm c,
  r ≠ [] →
  (copy_dir sm dm).2 = true →
  lookup_path sm r = Some (File c) →
  lookup_path (copy_dir sm dm).1
    (if is_dir (lookup_path dm r) then r ++ [default "" (last r)] else r)
  = Some (File c).
Proof.
  induction r as [|k r IH]; intros sm dm c Hne Hok Hsrc; [done|].
  cbn in Hsrc. destruct (sm !! k) as [s|] eqn:Hk; [|done].
  pose proof (copy_dir_ok _ _ _ _ Hok Hk) as Hok1.
  pose proof (copy_dir_lookup sm dm k) as Hl. rewrite Hk in Hl.
  destruct s as [c'|sm'].
  - destruct r; [|done]. injection Hsrc as ->.
    cbn [lookup_path last default app]. cbn in Hok1, Hl.
    destruct (dm !! k) as [[x|dd]|] eqn:Hd; cbn [is_dir].
    + cbn. by rewrite Hl.
    + destruct (dd !! k) as [[y|dy]|] eqn:Hdk; try done;
        cbn in Hl |- *; rewrite Hl; by rewrite lookup_insert_eq.
    + cbn. by rewrite Hl.
  - destruct (decide (r = [])) as [->|Hr]; [done|].
    rewrite copy_entry_dir in Hok1, Hl.
    assert (last (k :: r) = last r) as Hlast by (by destruct r).
    rewrite Hlast. cbn [lookup_path].
    destruct (dm !! k) as [[x|dd]|] eqn:Hd; [done| |].
    + cbn [fst snd] in Hok1, Hl.
      specialize (IH sm' dd c Hr Hok1 Hsrc).
      destruct (is_dir (lookup_path dd r)); cbn [app lookup_path];
        rewrite Hl; apply IH.
    + cbn [fst snd] in Hok1, Hl.
      specialize (IH sm' ∅ c Hr Hok1 Hsrc).
      rewrite lookup_path_empty in IH by done. cbn [is_dir] in IH |- *.
      cbn [lookup_path]. rewrite Hl. apply IH.
Qed.

(** ... and every directory of the source is a directory below the
    destination. *)
Lemma copy_dir_subdir r : ∀ sm dm,
  r ≠ [] →
  (copy_dir sm dm).2 = true →
  is_dir (lookup_path sm r) = true →
  is_dir (lookup_path (copy_dir sm dm).1 r) = true.
Proof.
  induction r as [|k r IH]; intros sm dm Hne Hok Hsrc; [done|].
  cbn in Hsrc. destruct (sm !! k) as [s|] eqn:Hk; [|done].
  pose proof (copy_dir_ok _ _ _ _ Hok Hk) as Hok1.
  pose proof (copy_dir_lookup sm dm k) as Hl. rewrite Hk in Hl.
  destruct s as [c'|sm']; [by destruct r|].
  rewrite copy_entry_dir in Hok1, Hl. cbn [lookup_path]. rewrite Hl.
  destruct (dm !! k) as [[x|dd]|] eqn:Hd; [done| |]; cbn [fst snd] in *.
  - destruct (decide (r = [])) as [->|Hr]; [done|]. by apply IH.
  - destruct (decide (r = [])) as [->|Hr]; [done|]. by apply IH.
Qed.

(** What [copy_dir] leaves outside the names of the source. *)
Lemma copy_dir_other sm dm k p :
  sm !! k = None →
  lookup_path (copy_dir sm dm).1 (k :: p) = lookup_path dm (k :: p).
Proof. intros Hk. cbn. by rewrite copy_dir_lookup, Hk. Qed.

(** [into_dir] succeeds exactly when no regular file lies on the path; it
    then acts on the directory found there, or on a new empty one. *)
Lemma into_dir_spec p f : ∀ m m' ok,
  into_dir p f m = Some (m', ok) →
  (lookup_path m p = None ∨ is_dir (lookup_path m p) = true) ∧
  ok = (f (dir_at m p)).2 ∧
  ∀ q, lookup_path m' (p ++ q) = lookup_path (f (dir_at m p)).1 q.
Proof.
  unfold dir_at.
  induction p as [|k p IH]; intros m m' ok; cbn.
  - intros [= Hf]. rewrite Hf. cbn. split; [by right|]. done.
  - destruct (m !! k) as [[c|d]|] eqn:Hk; [done| |].
    + destruct (into_dir p f d) as [[m'' ok']|] eqn:Hrec; [|done].
      intros [= <- <-]. destruct (IH _ _ _ Hrec) as (Hd & Hok & Hq).
      split; [done|]. split; [done|].
      intros q. rewrite lookup_insert_eq. apply Hq.
    + destruct (into_dir p f ∅) as [[m'' ok']|] eqn:Hrec; [|done].
      intros [= <- <-]. destruct (IH _ _ _ Hrec) as (Hd & Hok & Hq).
      split; [by left|].
      assert (lookup_path ∅ p = None ∨ p = []) as Hp.
      { destruct p; [by right|left]. cbn. by rewrite lookup_empty. }
      split.
      * rewrite Hok. destruct Hp as [->| ->]; done.
      * intros q. rewrite lookup_insert_eq, Hq.
        destruct Hp as [->| ->]; done.
Qed.

(** Nothing outside the destination is touched: a file that does not lie
    below [p] is still there. *)
Lemma into_dir_frame p f : ∀ m m' ok q c,
  into_dir p f m = Some (m', ok) →
  lookup_path m q = Some (File c) →
  ¬ p `prefix_of` q →
  lookup_path m' q = Some (File c).
Proof.
  induction p as [|k p IH]; intros m m' ok q c; cbn.
  - intros _ _ Hp. destruct Hp. apply prefix_nil.
  - destruct q as [|j q]; [done|]. cbn.
    destruct (decide (k = j)) as [<-|Hne].
    + destruct (m !! k) as [[x|d]|] eqn:Hk; [done| |done].
      destruct (into_dir p f d) as [[m'' ok']|] eqn:Hrec; [|done].
      intros [= <- <-] Hq Hp. rewrite lookup_insert_eq.
      eapply IH; [done..|]. intros Hpre. apply Hp. by apply prefix_cons.
    + intros Hm Hq _.
      assert (m' !! j = m !! j) as ->; [|done].
      destruct (m !! k) as [[x|d]|]; [done| |].
      * destruct (into_dir p f d) as [[m'' ok']|]; [|done].
        injection Hm as <- <-. by rewrite lookup_insert_ne.
      * destruct (into_dir p f ∅) as [[m'' ok']|]; [|done].
        injection Hm as <- <-. by rewrite lookup_insert_ne.
Qed.

(** *** [copytree] *)

Lemma copytree_ok_inv src dst root root' :
  copytree src dst root = (Ok tt, root') →
  ∃ sm, lookup_path root src = Some (Dir sm) ∧
        into_dir dst (copy_dir sm) root = Some (root', true).
Proof.
  unfold copytree. destruct (lookup_path root src) as [[c|sm]|]; [done| |done].
  destruct (into_dir dst (copy_dir sm) root) as [[m' [|]]|] eqn:Hinto; [|done..].
  intros [= <-]. by exists sm.
Qed.

(** After a successful [copytree] every file of the source tree is below the
    destination, an existing file at its place being overwritten. *)
Lemma copytree_file src dst root root' r c :
  copytree src dst root = (Ok tt, root') →
  r ≠ [] →
  lookup_path root (src ++ r) = Some (File c) →
  lookup_path root' (landing root dst r) = Some (File c).
Proof.
  intros (sm & Hsrc & Hinto)%copytree_ok_inv Hr Hfile.
  rewrite (lookup_path_app _ _ _ _ Hsrc) in Hfile.
  destruct (into_dir_spec _ _ _ _ _ Hinto) as (Hdst & Hok & Hq).
  symmetry in Hok.
  pose proof (copy_dir_file r sm (dir_at root dst) c Hr Hok Hfile) as Hcopy.
  assert (lookup_path (dir_at root dst) r = lookup_path root (dst ++ r)) as Heq.
  { unfold dir_at. destruct Hdst as [Hnone|Hdir].
    - rewrite Hnone, (lookup_path_app_None _ _ _ Hnone). by apply lookup_path_empty.
    - destruct (lookup_path root dst) as [[x|d]|] eqn:Hd; [done| |done].
      symmetry. by apply lookup_path_app. }
  rewrite Heq in Hcopy. unfold landing.
  destruct (is_dir (lookup_path root (dst ++ r))); by rewrite Hq.
Qed.

Lemma copytree_subdir src dst root root' r :
  copytree src dst root = (Ok tt, root') →
  is_dir (lookup_path root (src ++ r)) = true →
  is_dir (lookup_path root' (dst ++ r)) = true.
Proof.
  intros (sm & Hsrc & Hinto)%copytree_ok_inv Hsub.
  rewrite (lookup_path_app _ _ _ _ Hsrc) in Hsub.
  destruct (into_dir_spec _ _ _ _ _ Hinto) as (Hdst & Hok & Hq).
  rewrite Hq. destruct (decide (r = [])) as [->|Hr]; [done|].
  by apply copy_dir_subdir.
Qed.

(** Files outside the destination survive [copytree], whatever its
    outcome. *)
Lemma copytree_frame src dst root res root' q c :
  copytree src dst root = (res, root') →
  lookup_path root q = Some (File c) →
  ¬ dst `prefix_of` q →
  lookup_path root' q = Some (File c).
Proof.
  unfold copytree. intros Hcopy Hq Hpre.
  destruct (lookup_path root src) as [[x|sm]|]; [by injection Hcopy as _ <-| |by injection Hcopy as _ <-].
  destruct (into_dir dst (copy_dir sm) root) as [[m' ok]|] eqn:Hinto;
    [|by injection Hcopy as _ <-].
  assert (root' = m') as -> by (by destruct ok; injection Hcopy as _ <-).
  by eapply into_dir_frame.
Qed.

(** ** Paths built from a platform name *)

Lemma split_from_sep a : ∀ acc b,
  split_from acc (a +:+ String "/" b) = split_from acc a ++ split_from "" b.
Proof.
  induction a as [|c a IH]; intros acc b.
  - change ("" +:+ String "/" b) with (String "/" b). cbn.
    by destruct (String.eqb acc "").
  - change (String c a +:+ String "/" b) with (String c (a +:+ String "/" b)).
    cbn [split_from]. destruct (Ascii.eqb c "/").
    + destruct (String.eqb acc ""); by rewrite IH.
    + apply IH.
Qed.

Lemma split_bundle_path p :
  split_path (StepRepl.bundle_path p) =
  ["bin"; "Release"; "net8.0"] ++ split_path p ++ ["StepRepl.app"].
Proof.
  change (split_path (StepRepl.bundle_path p)) with
    (split_from "" ("bin" +:+ String "/" ("Release" +:+ String "/"
       ("net8.0" +:+ String "/" (p +:+ String "/" "StepRepl.app"))))).
  by rewrite !split_from_sep.
Qed.

Lemma split_publish_path p :
  split_path (StepRepl.publish_path p) =
  ["bin"; "Release"; "net8.0"] ++ split_path p ++ ["publish"].
Proof.
  change (split_path (StepRepl.publish_path p)) with
    (split_from "" ("bin" +:+ String "/" ("Release" +:+ String "/"
       ("net8.0" +:+ String "/" (p +:+ String "/" "publish"))))).
  by rewrite !split_from_sep.
Qed.

Lemma split_macos_path p :
  split_path (StepRepl.macos_path p) =
  split_path (StepRepl.bundle_path p) ++ ["Contents"; "MacOS"].
Proof.
  rewrite split_bundle_path.
  change (split_path (StepRepl.macos_path p)) with
    (split_from "" ("bin" +:+ String "/" ("Release" +:+ String "/"
       ("net8.0" +:+ String "/" (p +:+ String "/"
         ("StepRepl.app" +:+ String "/" ("Contents" +:+ String "/" "MacOS"))))))).
  rewrite !split_from_sep. by rewrite <- !app_assoc.
Qed.

(** The published output does not lie inside the bundle. *)
Lemma bundle_not_prefix_publish p q :
  ¬ split_path (StepRepl.bundle_path p) `prefix_of`
      split_path (StepRepl.publish_path p) ++ q.
Proof.
  rewrite split_bundle_path, split_publish_path.
  rewrite !app_assoc, <- !(app_assoc _ _ q).
  intros Hpre%prefix_app_inv. by apply prefix_cons_inv_1 in Hpre.
Qed.

(** ** Running statements *)

Section RunEquations.
Context {A B : Type}.

Lemma bind_run (m : Py A) (f : A → Py B) st :
  (m ≫= f) st =
  match m st with
  | (Ok a, st') => f a st'
  | (Raised e, st') => (Raised e, st')
  end.
Proof. reflexivity. Qed.

Lemma ret_run (a : A) st : mret (M := Py) a st = (Ok a, st).
Proof. reflexivity. Qed.

Lemma if_run (b : bool) (m1 m2 : Py A) st :
  (if b then m1 else m2) st = if b then m1 st else m2 st.
Proof. by destruct b. Qed.

Lemma sys_exit_run code st :
  sys_exit (A := A) code st = (Raised (SystemExit code), st).
Proof. reflexivity. Qed.
End RunEquations.

Lemma print_run s st : print s st = (Ok tt, extend st [Print s] (fs st)).
Proof. reflexivity. Qed.

Lemma assign_run p st :
  assign_current_platform p st = (Ok tt, with_platform p st).
Proof. reflexivity. Qed.

Lemma read_run st : read_current_platform st = (Ok (current_platform st), st).
Proof. reflexivity. Qed.

Lemma os_system_run h cmd st :
  os_system h cmd st =
  (Ok (run_shell h cmd (fs st)).1,
   extend st [System cmd (run_shell h cmd (fs st)).1] (run_shell h cmd (fs st)).2).
Proof. reflexivity. Qed.

Lemma shutil_copytree_run src dst st :
  shutil_copytree src dst st =
  ((copytree (split_path src) (split_path dst) (fs st)).1,
   extend st [CopyTree src dst]
     (copytree (split_path src) (split_path dst) (fs st)).2).
Proof. reflexivity. Qed.

Lemma extend_extend st evs root evs' root' :
  extend (extend st evs root) evs' root' = extend st (evs ++ evs') root'.
Proof. unfold extend. cbn. by rewrite app_assoc. Qed.

Lemma extend_with_platform p st evs root :
  extend (with_platform p st) evs root = with_platform p (extend st evs root).
Proof. reflexivity. Qed.

(** Decide the tests on closed strings that occur in the goal. *)
Ltac eval_tests :=
  repeat match goal with
    | |- context [String.eqb ?a ?b] =>
        let v := eval vm_compute in (String.eqb a b) in
        lazymatch v with
        | true => change (String.eqb a b) with true
        | false => change (String.eqb a b) with false
        end
    | |- context [StepRepl.is_target_flag ?a] =>
        let v := eval vm_compute in (StepRepl.is_target_flag a) in
        lazymatch v with
        | true => change (StepRepl.is_target_flag a) with true
        | false => change (StepRepl.is_target_flag a) with false
        end
    | |- context [str_in ?a ?l] =>
        let v := eval vm_compute in (str_in a l) in
        lazymatch v with
        | true => change (str_in a l) with true
        | false => change (str_in a l) with false
        end
    | |- context [String.prefix ?a ?b] =>
        let v := eval vm_compute in (String.prefix a b) in
        lazymatch v with
        | true => change (String.prefix a b) with true
        | false => change (String.prefix a b) with false
        end
    end.

Lemma fs_extend st evs root : fs (extend st evs root) = root.
Proof. reflexivity. Qed.

Lemma current_platform_extend st evs root :
  current_platform (extend st evs root) = current_platform st.
Proof. reflexivity. Qed.

Lemma log_extend st evs root : log (extend st evs root) = log st ++ evs.
Proof. reflexivity. Qed.

Ltac py_step :=
  first [ rewrite bind_run | rewrite ret_run | rewrite print_run
        | rewrite assign_run | rewrite read_run | rewrite sys_exit_run
        | rewrite os_system_run | rewrite shutil_copytree_run
        | rewrite if_run | rewrite extend_extend | rewrite fs_extend
        | rewrite current_platform_extend ].

Ltac py :=
  repeat first [ progress eval_tests | py_step
               | progress cbn [negb andb orb fst snd app] | progress cbv beta iota ].

(** *** The functions of StepRepl/publish.py *)

Lemma open_output_folder_run h st :
  StepRepl.open_output_folder h st = (Ok tt, after_open h st).
Proof.
  unfold StepRepl.open_output_folder, after_open, folder_command. py.
  destruct (String.eqb (sys_platform h) "darwin"); py; [done|].
  destruct (String.eqb (sys_platform h) "win32"); py; done.
Qed.

Lemma create_app_bundle_run h st :
  StepRepl.create_app_bundle h st =
  let p := current_platform st in
  let copy1 := CopyTree StepRepl.bundle_template (StepRepl.bundle_path p) in
  let copy2 := CopyTree (StepRepl.publish_path p) (StepRepl.macos_path p) in
  let c1 := copytree (split_path StepRepl.bundle_template)
                     (split_path (StepRepl.bundle_path p)) (fs st) in
  let c2 := copytree (split_path (StepRepl.publish_path p))
                     (split_path (StepRepl.macos_path p)) c1.2 in
  match c1.1 with
  | Raised e => (Raised e, extend st [Print "Creating .app bundle..."; copy1] c1.2)
  | Ok _ =>
      match c2.1 with
      | Raised e =>
          (Raised e, extend st [Print "Creating .app bundle..."; copy1; copy2] c2.2)
      | Ok _ =>
          (Ok tt, extend st [Print "Creating .app bundle..."; copy1; copy2;
                             Print (bundle_notice h)] c2.2)
      end
  end.
Proof.
  unfold StepRepl.create_app_bundle, bundle_notice. py.
  destruct (copytree _ _ (fs st)) as [[[]|e] root1]; py; [|done].
  destruct (copytree _ _ root1) as [[[]|e] root2]; py; [|done].
  by destruct (String.eqb (sys_platform h) "darwin").
Qed.

Lemma subprocess_run_run h cmd cwd st :
  subprocess_run h cmd cwd st =
  let b := run_process h cmd cwd (fs st) in
  if (b.1 =? 0)%Z then (Ok tt, extend st [Run cmd cwd b.1] b.2)
  else (Raised (CalledProcessError b.1 cmd), extend st [Run cmd cwd b.1] b.2).
Proof. reflexivity. Qed.

Lemma current_platform_after_open h st :
  current_platform (after_open h st) = current_platform st.
Proof. unfold after_open. by destruct (folder_command _ _). Qed.

Lemma do_build_run h st :
  StepRepl.do_build h st =
  let p := current_platform st in
  let cmd := StepRepl.build_command p in
  let parent := path_dirname h (getcwd h) in
  let b := run_process h cmd parent (fs st) in
  if (b.1 =? 0)%Z then
    let st1 := extend st [Print ("Publishing for " +:+ p +:+ "...");
                          Run cmd parent b.1;
                          Print ("Publish completed for " +:+ p +:+ ".")] b.2 in
    if String.prefix "osx" p then StepRepl.create_app_bundle h (after_open h st1)
    else (Ok tt, after_open h st1)
  else (Raised (CalledProcessError b.1 cmd),
        extend st [Print ("Publishing for " +:+ p +:+ "..."); Run cmd parent b.1] b.2).
Proof.
  unfold StepRepl.do_build. py. rewrite subprocess_run_run. py.
  cbv zeta. destruct (_ =? 0)%Z; py; [|done].
  rewrite open_output_folder_run. py.
  by rewrite current_platform_after_open, current_platform_extend.
Qed.

(** *** The dispatch on [os.sys.argv] *)

Lemma is_target_flag_cases a :
  StepRepl.is_target_flag a = true →
  a = "--target" ∨ a = "-t" ∨ a = "-p" ∨ a = "--platform".
Proof.
  unfold StepRepl.is_target_flag. rewrite !orb_true_iff, !String.eqb_eq. tauto.
Qed.

Lemma exit_after_state {A} code (r : result A * State) :
  (exit_after code r).2 = r.2.
Proof. by destruct r as [[a|e] st]. Qed.

Lemma exit_after_raised {A} code (r : result A * State) e :
  r.1 = Raised e → (exit_after code r).1 = Raised e.
Proof. destruct r as [[a|e'] st]; cbn; congruence. Qed.

Lemma exit_after_ok {A} code (r : result A * State) :
  (exit_after code r).1 = Raised (SystemExit code) →
  (∃ a, r.1 = Ok a) ∨ r.1 = Raised (SystemExit code).
Proof.
  destruct r as [[a|e'] st]; unfold exit_after; cbn [fst].
  - intros _. left. by exists a.
  - intros [= ->]. by right.
Qed.

Lemma main_target h prog flag target rest st :
  StepRepl.is_target_flag flag = true →
  StepRepl.main h (prog :: flag :: target :: rest) st =
  if negb (str_in target StepRepl.platforms) && negb (String.eqb target "all") then
    (Raised (SystemExit 1),
     extend (with_platform "" st)
       [Print ("Error: Invalid target platform '" +:+ target +:+
               "'. Use '--platforms' to list available platforms.")] (fs st))
  else if String.eqb target "all" then
    exit_after 0
      (for_each StepRepl.platforms
         (λ platform, assign_current_platform platform;; StepRepl.do_build h)
         (with_platform "" st))
  else exit_after 0 (StepRepl.do_build h (with_platform target st)).
Proof.
  intros Hflag. unfold StepRepl.main.
  apply is_target_flag_cases in Hflag as [-> | [-> | [-> | ->]]];
    cbn [length Nat.ltb Nat.leb lookup list_lookup argv_at]; py;
    (destruct (negb (str_in target StepRepl.platforms) && negb (String.eqb target "all"));
     py; [done|]);
    destruct (String.eqb target "all"); py; done.
Qed.

Lemma main_no_target h prog flag st :
  StepRepl.is_target_flag flag = true →
  StepRepl.main h [prog; flag] st =
  (Raised (SystemExit 1),
   extend (with_platform "" st) [Print "Error: No target platform specified."] (fs st)).
Proof.
  intros Hflag. unfold StepRepl.main.
  apply is_target_flag_cases in Hflag as [-> | [-> | [-> | ->]]];
    cbn [length Nat.ltb Nat.leb lookup list_lookup argv_at]; py; done.
Qed.

(** *** The log only grows *)

Create HintDb grows.

Lemma grows_ret {A} (a : A) : grows (mret a).
Proof. intros st. exists []. cbn. by rewrite app_nil_r. Qed.

Lemma grows_raise {A} e : grows (raise (A := A) e).
Proof. intros st. exists []. cbn. by rewrite app_nil_r. Qed.

Lemma grows_bind {A B} (m : Py A) (f : A → Py B) :
  grows m → (∀ a, grows (f a)) → grows (m ≫= f).
Proof.
  intros Hm Hf st. rewrite bind_run. destruct (Hm st) as [evs Hevs].
  destruct (m st) as [[a|e] st1]; cbn in Hevs.
  - destruct (Hf a st1) as [evs' Hevs']. exists (evs ++ evs').
    by rewrite Hevs', Hevs, app_assoc.
  - by exists evs.
Qed.

Lemma grows_print s : grows (print s).
Proof. intros st. by exists [Print s]. Qed.

Lemma grows_subprocess_run h cmd cwd : grows (subprocess_run h cmd cwd).
Proof.
  intros st. rewrite subprocess_run_run. cbv zeta.
  eexists. by destruct (_ =? 0)%Z.
Qed.

Lemma grows_for_each {A} (l : list A) (body : A → Py unit) :
  (∀ a, grows (body a)) → grows (for_each l body).
Proof.
  intros Hbody. induction l as [|a l IH]; cbn [for_each].
  - apply grows_ret.
  - apply grows_bind; [apply Hbody | intros _; apply IH].
Qed.

#[export] Hint Resolve grows_ret grows_raise grows_bind grows_print
  grows_subprocess_run grows_for_each : grows.

Lemma bind_assoc_run {A B C} (m : Py A) (f : A → Py B) (g : B → Py C) st :
  ((m ≫= f) ≫= g) st = (m ≫= λ a, f a ≫= g) st.
Proof. rewrite !bind_run. by destruct (m st) as [[a|e] st']. Qed.

(** *** Successful and failing runs of the functions *)

Lemma create_app_bundle_ok_inv h st st' :
  StepRepl.create_app_bundle h st = (Ok tt, st') →
  let p := current_platform st in
  ∃ mid,
    copytree (split_path StepRepl.bundle_template)
             (split_path (StepRepl.bundle_path p)) (fs st) = (Ok tt, mid) ∧
    copytree (split_path (StepRepl.publish_path p))
             (split_path (StepRepl.macos_path p)) mid = (Ok tt, fs st') ∧
    st' = extend st (bundle_events h p) (fs st').
Proof.
  rewrite create_app_bundle_run. cbv zeta.
  destruct (copytree _ _ (fs st)) as [[[]|e] mid] eqn:H1; cbn [fst snd]; [|done].
  destruct (copytree _ _ mid) as [[[]|e] final] eqn:H2; cbn [fst snd]; [|done].
  intros [= <-]. exists mid. by rewrite fs_extend.
Qed.

Lemma builds_app l1 l2 : builds (l1 ++ l2) = builds l1 ++ builds l2.
Proof. apply omap_app. Qed.

Lemma builds_print s l : builds (Print s :: l) = builds l.
Proof. reflexivity. Qed.

Lemma builds_run cmd cwd rc l :
  builds (Run cmd cwd rc :: l) = (cmd, cwd, rc) :: builds l.
Proof. reflexivity. Qed.

Lemma after_open_log h st :
  ∃ evs, log (after_open h st) = log st ++ evs ∧ builds evs = [].
Proof.
  unfold after_open. destruct (folder_command _ _).
  - by eexists.
  - exists []. by rewrite app_nil_r.
Qed.

Lemma create_app_bundle_log h st :
  ∃ evs, log (StepRepl.create_app_bundle h st).2 = log st ++ evs ∧ builds evs = [].
Proof.
  rewrite create_app_bundle_run. cbv zeta.
  destruct (copytree _ _ (fs st)) as [[[]|e] mid]; cbn [fst snd]; [|by eexists].
  destruct (copytree _ _ mid) as [[[]|e] final]; cbn [fst snd]; by eexists.
Qed.

(** One [do_build]: the announcement, one external build, then events that
    are not builds; a non-zero return code ends it at once. *)
Lemma do_build_log h st :
  let p := current_platform st in
  let cmd := StepRepl.build_command p in
  let parent := path_dirname h (getcwd h) in
  let rc := (run_process h cmd parent (fs st)).1 in
  let r := StepRepl.do_build h st in
  ∃ tail,
    log r.2 = log st ++ Print ("Publishing for " +:+ p +:+ "...")
                        :: Run cmd parent rc :: tail ∧
    builds tail = [] ∧
    (rc ≠ 0 → r.1 = Raised (CalledProcessError rc cmd) ∧ tail = []) ∧
    (r.1 = Ok tt → rc = 0) ∧
    (String.prefix "osx" p = false → rc = 0 → r.1 = Ok tt).
Proof.
  cbv zeta. rewrite do_build_run. cbv zeta.
  set (b := run_process h _ _ (fs st)).
  destruct (b.1 =? 0)%Z eqn:Hrc.
  - apply Z.eqb_eq in Hrc.
    match goal with
    | |- context [after_open h ?s] =>
        destruct (after_open_log h s) as (evs1 & Hlog1 & Hb1); set (st1 := after_open h s) in *
    end.
    rewrite log_extend in Hlog1.
    destruct (String.prefix "osx" (current_platform st)).
    + destruct (create_app_bundle_log h st1) as (evs2 & Hlog2 & Hb2).
      eexists (_ :: evs1 ++ evs2). rewrite Hlog2, Hlog1, <- !app_assoc. cbn [app].
      split; [done|].
      split; [by rewrite builds_print, builds_app, Hb1, Hb2|]. done.
    + eexists (_ :: evs1). cbn [fst snd]. rewrite Hlog1, <- !app_assoc.
      split; [done|]. split; [by rewrite builds_print, Hb1|]. done.
  - apply Z.eqb_neq in Hrc. exists []. cbn [fst snd].
    rewrite log_extend. done.
Qed.

Lemma do_build_ok_inv h st st' :
  StepRepl.do_build h st = (Ok tt, st') →
  let p := current_platform st in
  let cmd := StepRepl.build_command p in
  let parent := path_dirname h (getcwd h) in
  let b := run_process h cmd parent (fs st) in
  let built := extend st [Print ("Publishing for " +:+ p +:+ "...");
                          Run cmd parent 0;
                          Print ("Publish completed for " +:+ p +:+ ".")] b.2 in
  b.1 = 0 ∧
  if String.prefix "osx" p
  then StepRepl.create_app_bundle h (after_open h built) = (Ok tt, st')
  else st' = after_open h built.
Proof.
  rewrite do_build_run. cbv zeta.
  set (b := run_process h _ _ (fs st)).
  destruct (b.1 =? 0)%Z eqn:Hrc; [|done].
  apply Z.eqb_eq in Hrc. rewrite Hrc. split; [done|].
  destruct (String.prefix "osx" (current_platform st)); [done|]. congruence.
Qed.

(** ** [posixpath.dirname] gives the parent directory *)

Lemma append_cons c a s : String c a +:+ s = String c (a +:+ s).
Proof. reflexivity. Qed.

Lemma append_nil s : "" +:+ s = s.
Proof. reflexivity. Qed.

Lemma upto_last_sep_no_sep n : has_sep n = false → upto_last_sep n = "".
Proof.
  induction n as [|c n IH]; [done|]. cbn.
  intros [Hc Hn]%orb_false_elim. by rewrite Hc, IH.
Qed.

Lemma upto_last_sep_child d n :
  has_sep n = false → upto_last_sep (d +:+ String "/" n) = d +:+ "/".
Proof.
  intros Hn. induction d as [|c d IH].
  - rewrite !append_nil. cbn. by rewrite upto_last_sep_no_sep.
  - rewrite !append_cons. cbn [upto_last_sep]. rewrite IH.
    destruct (is_sep c); [done|]. by destruct d.
Qed.

Lemma all_sep_parent d :
  d ≠ "" → ends_with_sep d = false → all_sep (d +:+ "/") = false.
Proof.
  induction d as [|c d IH]; [done|]. intros _ Hend.
  rewrite append_cons. cbn [all_sep].
  destruct d as [|c' d].
  - cbn in Hend. by rewrite Hend.
  - rewrite IH; [by rewrite andb_false_r | done | done].
Qed.

Lemma rstrip_sep_parent d :
  d ≠ "" → ends_with_sep d = false → rstrip_sep (d +:+ "/") = d.
Proof.
  induction d as [|c d IH]; [done|]. intros _ Hend.
  rewrite append_cons. cbn [rstrip_sep].
  destruct d as [|c' d].
  - cbn in Hend |- *. by rewrite Hend.
  - rewrite IH by done. done.
Qed.

Lemma posixpath_dirname_parent d n :
  d ≠ "" → ends_with_sep d = false → has_sep n = false →
  posixpath_dirname (d +:+ "/" +:+ n) = d.
Proof.
  intros Hd Hend Hn. unfold posixpath_dirname.
  change (d +:+ "/" +:+ n) with (d +:+ String "/" n).
  rewrite upto_last_sep_child by done.
  rewrite all_sep_parent by done.
  assert (String.eqb (d +:+ "/") "" = false) as ->.
  { apply String.eqb_neq. by destruct d. }
  by apply rstrip_sep_parent.
Qed.

Lemma do_build_ok_built h st st' :
  StepRepl.do_build h st = (Ok tt, st') →
  if String.prefix "osx" (current_platform st)
  then StepRepl.create_app_bundle h (built_state h st) = (Ok tt, st')
  else st' = built_state h st.
Proof. intros H. by destruct (do_build_ok_inv _ _ _ H) as [_ Hrest]. Qed.

Lemma current_platform_built_state h st :
  current_platform (built_state h st) = current_platform st.
Proof. unfold built_state. by rewrite current_platform_after_open. Qed.

Lemma copytree_raises src dst root e :
  (copytree src dst root).1 = Raised e → e = OSError ∨ e = ShutilError.
Proof.
  unfold copytree. destruct (lookup_path root src) as [[c|sm]|]; cbn; [naive_solver| |naive_solver].
  destruct (into_dir dst (copy_dir sm) root) as [[m' [|]]|]; cbn; naive_solver.
Qed.

Lemma create_app_bundle_raises h st e :
  (StepRepl.create_app_bundle h st).1 = Raised e → e = OSError ∨ e = ShutilError.
Proof.
  rewrite create_app_bundle_run. cbv zeta.
  destruct (copytree _ _ (fs st)) as [[[]|e1] mid] eqn:H1; cbn [fst snd].
  - destruct (copytree _ _ mid) as [[[]|e2] final] eqn:H2; cbn [fst snd]; [done|].
    intros [= <-]. eapply copytree_raises. by rewrite H2.
  - intros [= <-]. eapply copytree_raises. by rewrite H1.
Qed.

(** [do_build] never ends the interpreter by itself. *)
Lemma do_build_raises h st e :
  (StepRepl.do_build h st).1 = Raised e → exit_status (Raised e) = 1.
Proof.
  rewrite do_build_run. cbv zeta.
  destruct (_ =? 0)%Z; [|by intros [= <-]].
  destruct (String.prefix "osx" (current_platform st)); [|done].
  intros [-> | ->]%create_app_bundle_raises; done.
Qed.

Lemma into_dir_prefix_dir p1 : ∀ p2 f m m' ok,
  into_dir (p1 ++ p2) f m = Some (m', ok) →
  is_dir (lookup_path m' p1) = true.
Proof.
  induction p1 as [|k p1 IH]; intros p2 f m m' ok; [done|]. cbn.
  destruct (m !! k) as [[c|d]|]; [done| |].
  - destruct (into_dir (p1 ++ p2) f d) as [[m'' ok']|] eqn:Hrec; [|done].
    intros [= <- <-]. rewrite lookup_insert_eq. by eapply IH.
  - destruct (into_dir (p1 ++ p2) f ∅) as [[m'' ok']|] eqn:Hrec; [|done].
    intros [= <- <-]. rewrite lookup_insert_eq. by eapply IH.
Qed.

(** A successful [copytree] leaves directories all along the destination
    path. *)
Lemma copytree_dst_dirs src p1 p2 root root' :
  copytree src (p1 ++ p2) root = (Ok tt, root') →
  is_dir (lookup_path root' p1) = true.
Proof.
  intros (sm & _ & Hinto)%copytree_ok_inv. by eapply into_dir_prefix_dir.
Qed.

(** A successful [create_app_bundle] is two successful copies, the first of
    which leaves the published output as it was. *)
Lemma create_app_bundle_copies h st st' :
  StepRepl.create_app_bundle h st = (Ok tt, st') →
  let p := current_platform st in
  ∃ mid,
    copytree (split_path StepRepl.bundle_template)
             (split_path (StepRepl.bundle_path p)) (fs st) = (Ok tt, mid) ∧
    copytree (split_path (StepRepl.publish_path p))
             (split_path (StepRepl.macos_path p)) mid = (Ok tt, fs st') ∧
    log st' = log st ++ bundle_events h p ∧
    ∀ r c, lookup_path (fs st) (split_path (StepRepl.publish_path p) ++ r)
             = Some (File c) →
           lookup_path mid (split_path (StepRepl.publish_path p) ++ r)
             = Some (File c).
Proof.
  intros Hbundle p. apply create_app_bundle_ok_inv in Hbundle.
  cbv zeta in Hbundle. fold p in Hbundle.
  destruct Hbundle as (mid & Hcopy1 & Hcopy2 & Hst').
  exists mid. split; [done|]. split; [done|].
  split; [by rewrite Hst', log_extend|].
  intros r c Hfile. eapply copytree_frame; [exact Hcopy1 | exact Hfile |].
  apply bundle_not_prefix_publish.
Qed.

Lemma after_open_events h st :
  ∃ status, log (after_open h st) = log st ++ open_events h (current_platform st) status.
Proof.
  unfold after_open, open_events. destruct (folder_command _ _).
  - by eexists.
  - exists 0. by rewrite app_nil_r.
Qed.

(** The log of a successful [do_build]. *)
Lemma do_build_ok_log h st st' :
  StepRepl.do_build h st = (Ok tt, st') →
  ∃ status, log st' = log st ++ build_events h (current_platform st) status.
Proof.
  intros Hbuild. pose proof (do_build_ok_built _ _ _ Hbuild) as Hrest.
  destruct (after_open_events h (extend st
    [Print ("Publishing for " +:+ current_platform st +:+ "...");
     Run (StepRepl.build_command (current_platform st)) (path_dirname h (getcwd h)) 0;
     Print ("Publish completed for " +:+ current_platform st +:+ ".")]
    (run_process h (StepRepl.build_command (current_platform st))
       (path_dirname h (getcwd h)) (fs st)).2)) as [status Hopen].
  fold (built_state h st) in Hopen.
  rewrite current_platform_extend, log_extend in Hopen.
  exists status. unfold build_events.
  destruct (String.prefix "osx" (current_platform st)).
  - apply create_app_bundle_ok_inv in Hrest. cbv zeta in Hrest.
    destruct Hrest as (mid & _ & _ & ->).
    rewrite log_extend, Hopen, current_platform_built_state.
    by rewrite <- !app_assoc.
  - subst st'. by rewrite Hopen, app_nil_r, <- !app_assoc.
Qed.

(** The loop of [--target all], platform by platform. *)
Lemma all_loop_run h st :
  for_each StepRepl.platforms
    (λ platform, assign_current_platform platform;; StepRepl.do_build h) st =
  match StepRepl.do_build h (with_platform "win-x64" st) with
  | (Ok _, s1) =>
      match StepRepl.do_build h (with_platform "linux-x64" s1) with
      | (Ok _, s2) =>
          match StepRepl.do_build h (with_platform "osx-x64" s2) with
          | (Ok _, s3) => (Ok tt, s3)
          | (Raised e, s3) => (Raised e, s3)
          end
      | (Raised e, s2) => (Raised e, s2)
      end
  | (Raised e, s1) => (Raised e, s1)
  end.
Proof.
  cbn [for_each StepRepl.platforms]. py.
  destruct (StepRepl.do_build h (with_platform "win-x64" st)) as [[[]|e1] s1]; [|done].
  py. destruct (StepRepl.do_build h (with_platform "linux-x64" s1)) as [[[]|e2] s2]; [|done].
  py. by destruct (StepRepl.do_build h (with_platform "osx-x64" s2)) as [[[]|e3] s3].
Qed.


Lemma shell_commands_app l1 l2 :
  shell_commands (l1 ++ l2) = shell_commands l1 ++ shell_commands l2.
Proof. apply omap_app. Qed.

Lemma shell_commands_build_events h p status :
  shell_commands (build_events h p status) =
  match folder_command h p with Some cmd => [cmd] | None => [] end.
Proof.
  unfold build_events, open_events, bundle_events.
  rewrite !shell_commands_app.
  destruct (folder_command h p); by destruct (String.prefix "osx" p).
Qed.

Lemma omap_folder_commands h :
  omap (folder_command h) StepRepl.platforms =
  match folder_command h "win-x64" with Some cmd => [cmd] | None => [] end ++
  match folder_command h "linux-x64" with Some cmd => [cmd] | None => [] end ++
  match folder_command h "osx-x64" with Some cmd => [cmd] | None => [] end.
Proof.
  unfold StepRepl.platforms. cbn.
  destruct (folder_command h "win-x64"), (folder_command h "linux-x64"),
    (folder_command h "osx-x64"); reflexivity.
Qed.

Lemma builds_block l s cmd cwd rc tail :
  builds tail = [] →
  builds (l ++ Print s :: Run cmd cwd rc :: tail) = builds l ++ [(cmd, cwd, rc)].
Proof.
  intros Htail. by rewrite builds_app, builds_print, builds_run, Htail.
Qed.

(** *** A build that returned 0 *)

Lemma do_build_zero_run h st :
  (run_process h (StepRepl.build_command (current_platform st))
     (path_dirname h (getcwd h)) (fs st)).1 = 0 →
  StepRepl.do_build h st =
  if String.prefix "osx" (current_platform st)
  then StepRepl.create_app_bundle h (built_state h st)
  else (Ok tt, built_state h st).
Proof.
  intros Hrc. rewrite do_build_run. cbv zeta. unfold built_state.
  by rewrite Hrc.
Qed.

Lemma built_state_log h st :
  let p := current_platform st in
  let cmd := StepRepl.build_command p in
  let parent := path_dirname h (getcwd h) in
  ∃ status,
    log (built_state h st) =
      log st ++ [Print ("Publishing for " +:+ p +:+ "...");
                 Run cmd parent 0;
                 Print ("Publish completed for " +:+ p +:+ ".")]
             ++ open_events h p status ∧
    ∀ c, folder_command h p = Some c →
         status = (run_shell h c (run_process h cmd parent (fs st)).2).1.
Proof.
  cbv zeta. unfold built_state, after_open, open_events.
  rewrite current_platform_extend, fs_extend.
  destruct (folder_command h (current_platform st)) as [c|].
  - eexists. rewrite !log_extend, <- app_assoc. split; [done|].
    by intros c' [= <-].
  - exists 0. by rewrite log_extend, app_nil_r.
Qed.

Lemma create_app_bundle_events h st :
  ∃ tail,
    log (StepRepl.create_app_bundle h st).2 = log st ++ tail ∧
    tail `prefix_of` bundle_events h (current_platform st) ∧
    ((StepRepl.create_app_bundle h st).1 = Ok tt →
     tail = bundle_events h (current_platform st)).
Proof.
  rewrite create_app_bundle_run. cbv zeta. unfold bundle_events.
  destruct (copytree _ _ (fs st)) as [[[]|e1] mid]; cbn [fst snd].
  - destruct (copytree _ _ mid) as [[[]|e2] final]; cbn [fst snd].
    + eexists. split; [apply log_extend|]. by split.
    + eexists. split; [apply log_extend|]. split; [by eexists [_]|done].
  - eexists. split; [apply log_extend|]. split; [by eexists [_; _]|done].
Qed.

(** The log of [do_build] when the build returned 0: the build, the
    folder-open, then whatever [create_app_bundle] got to. *)
Lemma do_build_zero_log h st :
  let p := current_platform st in
  let cmd := StepRepl.build_command p in
  let parent := path_dirname h (getcwd h) in
  (run_process h cmd parent (fs st)).1 = 0 →
  ∃ status tail,
    log (StepRepl.do_build h st).2 =
      log st ++ [Print ("Publishing for " +:+ p +:+ "...");
                 Run cmd parent 0;
                 Print ("Publish completed for " +:+ p +:+ ".")]
             ++ open_events h p status ++ tail ∧
    tail `prefix_of` (if String.prefix "osx" p then bundle_events h p else []) ∧
    ((StepRepl.do_build h st).1 = Ok tt →
     tail = if String.prefix "osx" p then bundle_events h p else []).
Proof.
  intros p cmd parent Hrc. rewrite (do_build_zero_run h st Hrc). fold p.
  destruct (built_state_log h st) as [status [Hbuilt _]]. cbv zeta in Hbuilt.
  fold p cmd parent in Hbuilt. exists status.
  destruct (String.prefix "osx" p).
  - destruct (create_app_bundle_events h (built_state h st))
      as (tail & Hlog & Hpre & Hfull).
    rewrite current_platform_built_state in Hpre, Hfull. fold p in Hpre, Hfull.
    exists tail. rewrite Hlog, Hbuilt, <- !app_assoc. done.
  - exists []. cbn [fst snd]. by rewrite Hbuilt, app_nil_r.
Qed.

(** * The claims *)

(** C1, as stated, fails: [osx-arm64] is not among the platforms of
    StepRepl/publish.py, so [--target osx-arm64] is rejected: one error
    line, status 1, nothing built and no bundle, on a host whose toolchain
    would have built it. *)
Lemma C1_osx_arm64_is_rejected :
  let r := StepRepl.execute linux_host ["publish.py"; "--target"; "osx-arm64"]
             sample_tree in
  str_in "osx-arm64" StepRepl.platforms = false ∧
  exit_status r.1 = 1 ∧
  log r.2 = [Print "Error: Invalid target platform 'osx-arm64'. Use '--platforms' to list available platforms."] ∧
  lookup_path (fs r.2) ["bin"; "Release"; "net8.0"; "osx-arm64"; "StepRepl.app"] = None.
Proof. vm_compute. done. Qed.

(** C1, amended.  The macOS platform of StepRepl/publish.py is [osx-x64]
    ([osx-arm64] is not supported).  With [--target osx-x64] on a host that
    is not macOS, a run that ends with status 0 leaves the directory
    [bin/Release/net8.0/osx-x64/StepRepl.app], every file of the published
    output is below its [Contents/MacOS] (at the same relative path, or
    inside a directory that already had that path), and the last line
    printed is the code-signing warning. *)
Theorem C1_osx_x64_bundle_on_other_hosts h root prog flag rest :
  StepRepl.is_target_flag flag = true →
  sys_platform h ≠ "darwin" →
  let r := StepRepl.execute h (prog :: flag :: "osx-x64" :: rest) root in
  let before := fs (built_state h (with_platform "osx-x64" (initial root))) in
  let out := ["bin"; "Release"; "net8.0"; "osx-x64"] in
  str_in "osx-x64" StepRepl.platforms = true ∧
  str_in "osx-arm64" StepRepl.platforms = false ∧
  (exit_status r.1 = 0 →
   is_dir (lookup_path (fs r.2) (out ++ ["StepRepl.app"])) = true ∧
   last (log r.2) = Some (Print StepRepl.codesign_warning) ∧
   ∀ q c, q ≠ [] →
     lookup_path before (out ++ ["publish"] ++ q) = Some (File c) →
     lookup_path (fs r.2) (out ++ ["StepRepl.app"; "Contents"; "MacOS"] ++ q)
       = Some (File c) ∨
     lookup_path (fs r.2)
       (out ++ ["StepRepl.app"; "Contents"; "MacOS"] ++ q ++ [default "" (last q)])
       = Some (File c)).
Proof.
  intros Hflag Hhost%String.eqb_neq r before out.
  split; [done|]. split; [done|]. subst r.
  unfold StepRepl.execute. rewrite main_target by done.
  eval_tests. cbn [negb andb]. rewrite if_run || idtac.
  set (start := with_platform "osx-x64" (initial root)) in *.
  destruct (StepRepl.do_build h start) as [[[]|e] st'] eqn:Hbuild.
  - intros _. cbn [exit_after fst snd].
    pose proof (do_build_ok_built _ _ _ Hbuild) as Hbundle.
    change (String.prefix "osx" (current_platform start)) with true in Hbundle.
    apply create_app_bundle_copies in Hbundle. cbv zeta in Hbundle.
    rewrite current_platform_built_state in Hbundle.
    destruct Hbundle as (mid & Hcopy1 & Hcopy2 & Hlog & Hkeep).
    change (current_platform start) with "osx-x64" in *.
    change (split_path (StepRepl.bundle_path "osx-x64"))
      with (out ++ ["StepRepl.app"]) in *.
    change (split_path (StepRepl.publish_path "osx-x64"))
      with (out ++ ["publish"]) in *.
    change (split_path (StepRepl.macos_path "osx-x64"))
      with ((out ++ ["StepRepl.app"]) ++ ["Contents"; "MacOS"]) in *.
    split; [by eapply copytree_dst_dirs|]. split.
    + rewrite Hlog. unfold bundle_events, bundle_notice. by rewrite last_app, Hhost.
    + intros q c Hq Hfile.
      rewrite app_assoc in Hfile. apply Hkeep in Hfile.
      pose proof (copytree_file _ _ _ _ _ _ Hcopy2 Hq Hfile) as Hfinal.
      unfold landing in Hfinal.
      destruct (is_dir _); [right|left]; by rewrite <- !app_assoc in Hfinal.
  - cbn [exit_after fst]. intros Hexit.
    pose proof (do_build_raises h start e) as Hone. rewrite Hbuild in Hone.
    specialize (Hone eq_refl). rewrite Hone in Hexit. done.
Qed.

Lemma C1_osx_x64_bundle_on_other_hosts_witness :
  let r := StepRepl.execute linux_host ["publish.py"; "--target"; "osx-x64"]
             sample_tree in
  is_dir (lookup_path (fs r.2)
            ["bin"; "Release"; "net8.0"; "osx-x64"; "StepRepl.app"]) = true ∧
  last (log r.2) = Some (Print StepRepl.codesign_warning).
Proof.
  destruct (C1_osx_x64_bundle_on_other_hosts linux_host sample_tree
              "publish.py" "--target" [] eq_refl) as (_ & _ & H).
  - discriminate.
  - destruct H as (Hdir & Hlast & _); [vm_compute; reflexivity|].
    split; [exact Hdir | exact Hlast].
Defined.

(** C2.  [--target all] starts the external build for the supported
    platforms in their listed order, each at most once.  Every build but the
    last one started has returned 0; the run goes on to the next platform
    only then, so it stops short of the third platform only at a non-zero
    return code; and a non-zero return code ends the run at once with a
    [CalledProcessError] that carries it (exit status 1), the failed build
    being the last event. *)
Theorem C2_all_stops_at_first_failure h root prog flag rest :
  StepRepl.is_target_flag flag = true →
  let r := StepRepl.execute h (prog :: flag :: "all" :: rest) root in
  let parent := path_dirname h (getcwd h) in
  StepRepl.platforms = ["win-x64"; "linux-x64"; "osx-x64"] ∧
  ∃ codes : list Z,
    (0 < length codes ≤ length StepRepl.platforms)%nat ∧
    builds (log r.2) =
      zip_with (λ p rc, (StepRepl.build_command p, parent, rc))
               StepRepl.platforms codes ∧
    (∀ i rc, codes !! i = Some rc → (S i < length codes)%nat → rc = 0) ∧
    ((length codes < length StepRepl.platforms)%nat →
     ∃ rc, last codes = Some rc ∧ rc ≠ 0) ∧
    (∀ rc, last codes = Some rc → rc ≠ 0 →
       ∃ p, StepRepl.platforms !! (length codes - 1)%nat = Some p ∧
            r.1 = Raised (CalledProcessError rc (StepRepl.build_command p)) ∧
            last (log r.2) = Some (Run (StepRepl.build_command p) parent rc) ∧
            exit_status r.1 = 1).
Proof.
  intros Hflag r parent. subst r. split; [done|].
  unfold StepRepl.execute. rewrite main_target by done.
  eval_tests. cbn [negb andb]. rewrite all_loop_run.
  set (st1 := with_platform "win-x64" _).
  pose proof (do_build_log h st1) as B1. cbv zeta in B1.
  destruct B1 as (t1 & L1 & N1 & F1 & O1 & P1).
  change (current_platform st1) with "win-x64" in *.
  change (log st1) with (@nil event) in L1. cbn [app] in L1.
  fold parent in L1, F1, O1, P1.
  set (rc1 := (run_process h (StepRepl.build_command "win-x64") parent (fs st1)).1) in *.
  destruct (StepRepl.do_build h st1) as [[[]|e1] s1] eqn:H1; cbn [fst snd] in *; cycle 1.
  { (* the first build failed *)
    assert (rc1 ≠ 0) as Hrc.
    { intros Hz. by specialize (P1 eq_refl Hz). }
    destruct (F1 Hrc) as [[= ->] ->].
    exists [rc1]. cbn [exit_after fst snd]. rewrite L1.
    split; [cbn; lia|]. split; [done|].
    split; [intros i rc _ Hi; cbn in Hi; lia|].
    split; [intros _; by exists rc1|].
    intros rc [= <-] _. by exists "win-x64". }
  specialize (O1 eq_refl).
  set (st2 := with_platform "linux-x64" s1).
  pose proof (do_build_log h st2) as B2. cbv zeta in B2.
  destruct B2 as (t2 & L2 & N2 & F2 & O2 & P2).
  change (current_platform st2) with "linux-x64" in *.
  change (log st2) with (log s1) in L2.
  fold parent in L2, F2, O2, P2.
  set (rc2 := (run_process h (StepRepl.build_command "linux-x64") parent (fs st2)).1) in *.
  destruct (StepRepl.do_build h st2) as [[[]|e2] s2] eqn:H2; cbn [fst snd] in *; cycle 1.
  { (* the second build failed *)
    assert (rc2 ≠ 0) as Hrc.
    { intros Hz. by specialize (P2 eq_refl Hz). }
    destruct (F2 Hrc) as [[= ->] ->].
    exists [rc1; rc2]. cbn [exit_after fst snd]. rewrite L2, L1.
    split; [cbn; lia|].
    split; [by rewrite builds_block, builds_print, builds_run, N1|].
    split.
    { intros [|[|i]] rc Hi Hlen; cbn in Hi, Hlen; [congruence|lia|lia]. }
    split; [intros _; by exists rc2|].
    intros rc [= <-] _. exists "linux-x64". split; [done|]. split; [done|].
    split; [|done].
    by rewrite last_app. }
  specialize (O2 eq_refl).
  set (st3 := with_platform "osx-x64" s2).
  pose proof (do_build_log h st3) as B3. cbv zeta in B3.
  destruct B3 as (t3 & L3 & N3 & F3 & _ & _).
  change (current_platform st3) with "osx-x64" in *.
  change (log st3) with (log s2) in L3.
  fold parent in L3, F3.
  set (rc3 := (run_process h (StepRepl.build_command "osx-x64") parent (fs st3)).1) in *.
  exists [rc1; rc2; rc3].
  assert (log (exit_after 0
            match StepRepl.do_build h st3 with
            | (Ok _, s3) => (Ok tt, s3)
            | (Raised e, s3) => (Raised e, s3)
            end).2 = log (StepRepl.do_build h st3).2) as ->
    by (by destruct (StepRepl.do_build h st3) as [[[]|e3] s3]).
  rewrite L3, L2, L1.
  split; [cbn; lia|].
  split.
  { rewrite (builds_block _ _ _ _ _ _ N3), (builds_block _ _ _ _ _ _ N2).
    by rewrite builds_print, builds_run, N1. }
  split.
  { intros [|[|[|i]]] rc Hi Hlen; cbn in Hi, Hlen; [congruence|congruence|lia|lia]. }
  split; [cbn; lia|].
  intros rc [= <-] Hrc. destruct (F3 Hrc) as [Hraised ->].
  exists "osx-x64". split; [done|].
  destruct (StepRepl.do_build h st3) as [[[]|e3] s3]; cbn [fst] in Hraised; [done|].
  injection Hraised as ->. cbn [exit_after fst]. split; [done|]. split; [|done].
  by rewrite !last_app.
Qed.

Lemma C2_all_stops_at_first_failure_witness :
  ∃ codes : list Z,
    builds (log (StepRepl.execute failing_host ["publish.py"; "--target"; "all"]
                   sample_tree).2)
    = zip_with (λ p rc, (StepRepl.build_command p, "/home/dev/Step", rc))
               StepRepl.platforms codes ∧
    (length codes < length StepRepl.platforms)%nat.
Proof.
  destruct (C2_all_stops_at_first_failure failing_host sample_tree
              "publish.py" "--target" [] eq_refl)
    as (_ & codes & Hlen & Hbuilds & _).
  exists codes. split; [exact Hbuilds|].
  destruct codes as [|c1 [|c2 [|c3 codes]]]; cbn; try lia.
  vm_compute in Hbuilds. destruct codes; discriminate Hbuilds.
Defined.

(** C3.  A target that is neither a supported platform nor [all], and a
    target flag with nothing after it, make the StepRepl script print one
    error line and exit with status 1; no process is started, no tree is
    copied, and the directory tree is as it was. *)
Theorem C3_invalid_target_exits_1 h root prog flag x rest :
  StepRepl.is_target_flag flag = true →
  str_in x StepRepl.platforms = false →
  x ≠ "all" →
  let bad := StepRepl.execute h (prog :: flag :: x :: rest) root in
  let missing := StepRepl.execute h [prog; flag] root in
  (exit_status bad.1 = 1 ∧
   log bad.2 = [Print ("Error: Invalid target platform '" +:+ x +:+
                       "'. Use '--platforms' to list available platforms.")] ∧
   effects (log bad.2) = [] ∧ fs bad.2 = root) ∧
  (exit_status missing.1 = 1 ∧
   log missing.2 = [Print "Error: No target platform specified."] ∧
   effects (log missing.2) = [] ∧ fs missing.2 = root).
Proof.
  intros Hflag Hx Hall%String.eqb_neq bad missing. subst bad missing.
  unfold StepRepl.execute.
  rewrite main_target, main_no_target, Hx, Hall by done. done.
Qed.

Lemma C3_invalid_target_exits_1_witness :
  let bad := StepRepl.execute linux_host ["publish.py"; "-t"; "osx-arm64"] sample_tree in
  exit_status bad.1 = 1 ∧ effects (log bad.2) = [].
Proof.
  pose proof (C3_invalid_target_exits_1 linux_host sample_tree "publish.py" "-t"
                "osx-arm64" []) as H.
  destruct H as [(H1 & _ & H2 & _) _]; [reflexivity | reflexivity | discriminate |].
  split; [exact H1 | exact H2].
Defined.

(** C4, as stated, fails for the second script: AvaloniaRepl/publish.py
    run with [--platforms] lists nothing and builds every platform. *)
Lemma C4_avalonia_platforms_flag_builds :
  let r := AvaloniaRepl.execute linux_host ["publish.py"; "--platforms"] sample_tree in
  exit_status r.1 = 0 ∧
  log r.2 =
    [Print "Publishing for win-x64...";
     Run (AvaloniaRepl.build_command "win-x64") "/home/dev/Step" 0;
     Print "Publishing for linux-x64...";
     Run (AvaloniaRepl.build_command "linux-x64") "/home/dev/Step" 0;
     Print "Publishing for osx-arm64...";
     Run (AvaloniaRepl.build_command "osx-arm64") "/home/dev/Step" 0;
     Print "Publishing for osx-x64...";
     Run (AvaloniaRepl.build_command "osx-x64") "/home/dev/Step" 0;
     Print "Publish completed for all platforms."] ∧
  length (builds (log r.2)) = 4%nat.
Proof. vm_compute. done. Qed.

(** C4, amended.  Only StepRepl/publish.py has a command line: with
    [--platforms] as first argument it prints its three platform
    identifiers, starts nothing and exits with status 0.
    AvaloniaRepl/publish.py never reads its arguments: whatever they are it
    behaves as with none, starting with the build for [win-x64]. *)
Theorem C4_platforms_flag h root prog rest argv :
  (let r := StepRepl.execute h (prog :: "--platforms" :: rest) root in
   exit_status r.1 = 0 ∧
   log r.2 =
     [Print "Available platforms:";
      Print "  win-x64"; Print "  linux-x64"; Print "  osx-x64";
      Print "Use '--target <platform>' to publish for a specific platform. '--target all' publishes for all platforms."] ∧
   effects (log r.2) = [] ∧ fs r.2 = root) ∧
  (let r := AvaloniaRepl.execute h argv root in
   r = AvaloniaRepl.execute h [] root ∧
   ∃ rc tail,
     log r.2 = Print "Publishing for win-x64..."
               :: Run (AvaloniaRepl.build_command "win-x64")
                      (path_dirname h (getcwd h)) rc
               :: tail).
Proof.
  split.
  - intros r. subst r. unfold StepRepl.execute, StepRepl.main.
    cbn [length Nat.ltb Nat.leb lookup list_lookup argv_at for_each StepRepl.platforms].
    py. done.
  - intros r. subst r. split; [done|].
    unfold AvaloniaRepl.execute, AvaloniaRepl.main.
    cbn [for_each AvaloniaRepl.platforms].
    rewrite !bind_assoc_run, bind_run, print_run. cbv beta iota.
    rewrite bind_run, subprocess_run_run. cbv zeta.
    rewrite fs_extend. change (fs (initial root)) with root.
    set (b := run_process h _ _ root). exists b.1.
    destruct (b.1 =? 0)%Z; cbv beta iota; rewrite extend_extend; [|by eexists].
    match goal with
    | |- context [?m (extend (initial root) ?evs ?t)] =>
        assert (grows m) as Hgrows by auto 10 with grows;
        destruct (Hgrows (extend (initial root) evs t)) as [tail Htail]
    end.
    exists tail. by rewrite Htail.
Qed.

(** C5.  For a supported platform [p], [--target p] starts the external
    build exactly once: the command is the fixed template with [p] in it,
    it runs in [os.path.dirname(os.getcwd())], which on a POSIX host is the
    directory that contains the working directory, and the script goes on
    only after the command has ended, a non-zero return code ending the run
    there. *)
Theorem C5_one_build_in_parent_directory h root prog flag p rest :
  StepRepl.is_target_flag flag = true →
  str_in p StepRepl.platforms = true →
  let r := StepRepl.execute h (prog :: flag :: p :: rest) root in
  let cmd := "dotnet publish StepRepl -r " +:+ p +:+
    " -p:IncludeNativeLibrariesForSelfExtract=true -p:PublishReadyToRunComposite=true -p:UseAppHost=true --self-contained true" in
  let parent := path_dirname h (getcwd h) in
  let rc := (run_process h cmd parent root).1 in
  builds (log r.2) = [(cmd, parent, rc)] ∧
  (∃ tail, log r.2 = Print ("Publishing for " +:+ p +:+ "...")
                     :: Run cmd parent rc :: tail ∧
           (rc ≠ 0 → tail = [] ∧ r.1 = Raised (CalledProcessError rc cmd))) ∧
  (∀ d n, d ≠ "" → ends_with_sep d = false → has_sep n = false →
          posixpath_dirname (d +:+ "/" +:+ n) = d).
Proof.
  intros Hflag Hp r cmd parent rc. subst r.
  split; [|split; [|apply posixpath_dirname_parent]].
  all: unfold StepRepl.execute; rewrite main_target by done.
  all: assert (String.eqb p "all" = false) as Hall
         by (apply String.eqb_neq; intros ->; done).
  all: rewrite Hp, Hall; cbn [negb andb].
  all: pose proof (do_build_log h (with_platform p (initial root))) as Hb;
       cbv zeta in Hb; destruct Hb as (tail & Hlog & Hnone & Hfail & _).
  all: change (current_platform (with_platform p (initial root))) with p in *.
  all: change (fs (with_platform p (initial root))) with root in *.
  all: change (log (with_platform p (initial root))) with (@nil event) in *.
  all: fold cmd parent rc in Hlog, Hfail.
  all: rewrite exit_after_state.
  - rewrite Hlog. cbn [app]. by rewrite builds_print, builds_run, Hnone.
  - exists tail. rewrite Hlog. split; [done|].
    intros Hrc. destruct (Hfail Hrc) as [Hr ->]. split; [done|].
    by apply exit_after_raised.
Qed.

Lemma C5_one_build_in_parent_directory_witness :
  builds (log (StepRepl.execute linux_host ["publish.py"; "--target"; "linux-x64"]
                 sample_tree).2)
  = [(StepRepl.build_command "linux-x64", "/home/dev/Step", 0)].
Proof.
  exact (proj1 (C5_one_build_in_parent_directory linux_host sample_tree
                  "publish.py" "--target" "linux-x64" [] eq_refl eq_refl)).
Defined.

(** C6.  Post-processing of a macOS target.  When [do_build] for a platform
    whose name starts with [osx] succeeds, [create_app_bundle] has run on
    the tree the build and the folder-open left: first the bundle template
    was copied to the bundle path, every file and directory of it, then the
    published output was copied below [Contents/MacOS] of the bundle, a file
    already at the place of a copied file being overwritten; template files
    outside [Contents/MacOS] are still there at the end. *)
Theorem C6_bundle_template_then_publish h st st' :
  String.prefix "osx" (current_platform st) = true →
  StepRepl.do_build h st = (Ok tt, st') →
  let p := current_platform st in
  let template := split_path StepRepl.bundle_template in
  let bundle := split_path (StepRepl.bundle_path p) in
  let publish := split_path (StepRepl.publish_path p) in
  let macos := split_path (StepRepl.macos_path p) in
  let before := fs (built_state h st) in
  ∃ mid,
    copytree template bundle before = (Ok tt, mid) ∧
    copytree publish macos mid = (Ok tt, fs st') ∧
    log st' = log (built_state h st) ++
      [Print "Creating .app bundle...";
       CopyTree "BuildAssets/StepRepl.app" (StepRepl.bundle_path p);
       CopyTree (StepRepl.publish_path p) (StepRepl.macos_path p);
       Print (bundle_notice h)] ∧
    macos = bundle ++ ["Contents"; "MacOS"] ∧
    (∀ r, is_dir (lookup_path before (template ++ r)) = true →
          is_dir (lookup_path mid (bundle ++ r)) = true) ∧
    (∀ r c, r ≠ [] → lookup_path before (template ++ r) = Some (File c) →
            lookup_path mid (landing before bundle r) = Some (File c) ∧
            (¬ macos `prefix_of` landing before bundle r →
             lookup_path (fs st') (landing before bundle r) = Some (File c))) ∧
    (∀ r c, r ≠ [] → lookup_path before (publish ++ r) = Some (File c) →
            lookup_path (fs st') (landing mid macos r) = Some (File c)) ∧
    (∀ r c old, r ≠ [] → lookup_path before (publish ++ r) = Some (File c) →
            lookup_path mid (macos ++ r) = Some (File old) →
            lookup_path (fs st') (macos ++ r) = Some (File c)).
Proof.
  intros Hosx Hbuild p template bundle publish macos before.
  pose proof (do_build_ok_built _ _ _ Hbuild) as Hbundle. rewrite Hosx in Hbundle.
  apply create_app_bundle_copies in Hbundle. cbv zeta in Hbundle.
  rewrite current_platform_built_state in Hbundle.
  destruct Hbundle as (mid & Hcopy1 & Hcopy2 & Hlog & Hkeep).
  fold p template bundle publish macos before in Hcopy1, Hcopy2, Hkeep.
  exists mid. split; [done|]. split; [done|]. split; [done|].
  split; [apply split_macos_path|].
  split; [intros r; by apply copytree_subdir|].
  split; [|split].
  - intros r c Hr Hfile.
    pose proof (copytree_file _ _ _ _ _ _ Hcopy1 Hr Hfile) as Hmid.
    split; [done|]. intros Hout. by eapply copytree_frame.
  - intros r c Hr Hfile. eapply copytree_file; eauto.
  - intros r c old Hr Hfile Hold.
    pose proof (copytree_file _ _ _ _ _ _ Hcopy2 Hr (Hkeep _ _ Hfile)) as Hfinal.
    unfold landing in Hfinal. by rewrite Hold in Hfinal.
Qed.

Lemma C6_bundle_template_then_publish_witness :
  lookup_path (fs (StepRepl.do_build linux_host sample_start).2)
    (split_path (StepRepl.macos_path "osx-x64") ++ ["StepRepl"])
  = Some (File "exe for osx-x64").
Proof.
  assert (StepRepl.do_build linux_host sample_start
          = (Ok tt, (StepRepl.do_build linux_host sample_start).2)) as Hbuild
    by (vm_compute; reflexivity).
  destruct (C6_bundle_template_then_publish linux_host sample_start _
              eq_refl Hbuild) as (mid & Hmid & _ & _ & _ & _ & _ & _ & Hover).
  apply (Hover ["StepRepl"] "exe for osx-x64" "stale").
  - discriminate.
  - vm_compute. reflexivity.
  - apply (f_equal snd) in Hmid. cbn [snd] in Hmid. rewrite <- Hmid.
    vm_compute. reflexivity.
Defined.

(** C7.  On a host that is not macOS, [create_app_bundle] makes the same two
    copies and then prints the warning.  When both copies succeed it returns
    normally, and the copies have copied: every directory and file of the
    template is below the bundle after the first, every file of the
    published output is below [Contents/MacOS] of the bundle after the
    second, a file already at its place being overwritten, and template
    files outside [Contents/MacOS] are still there.  Whatever the copies do,
    its events are an initial part of "announce, copy, copy, warn": nothing
    is signed, no process is started. *)
Theorem C7_warning_on_other_hosts h st mid final :
  sys_platform h ≠ "darwin" →
  let p := current_platform st in
  let template := split_path StepRepl.bundle_template in
  let bundle := split_path (StepRepl.bundle_path p) in
  let publish := split_path (StepRepl.publish_path p) in
  let macos := split_path (StepRepl.macos_path p) in
  copytree template bundle (fs st) = (Ok tt, mid) →
  copytree publish macos mid = (Ok tt, final) →
  StepRepl.create_app_bundle h st =
    (Ok tt,
     {| current_platform := p; fs := final;
        log := log st ++
          [Print "Creating .app bundle...";
           CopyTree "BuildAssets/StepRepl.app" (StepRepl.bundle_path p);
           CopyTree (StepRepl.publish_path p) (StepRepl.macos_path p);
           Print StepRepl.codesign_warning] |}) ∧
  (macos = bundle ++ ["Contents"; "MacOS"] ∧
   (∀ r, is_dir (lookup_path (fs st) (template ++ r)) = true →
         is_dir (lookup_path mid (bundle ++ r)) = true) ∧
   (∀ r c, r ≠ [] → lookup_path (fs st) (template ++ r) = Some (File c) →
           lookup_path mid (landing (fs st) bundle r) = Some (File c) ∧
           (¬ macos `prefix_of` landing (fs st) bundle r →
            lookup_path final (landing (fs st) bundle r) = Some (File c))) ∧
   (∀ r c, r ≠ [] → lookup_path (fs st) (publish ++ r) = Some (File c) →
           lookup_path final (landing mid macos r) = Some (File c)) ∧
   (∀ r c old, r ≠ [] → lookup_path (fs st) (publish ++ r) = Some (File c) →
           lookup_path mid (macos ++ r) = Some (File old) →
           lookup_path final (macos ++ r) = Some (File c))) ∧
  ∀ st0, ∃ evs,
    log (StepRepl.create_app_bundle h st0).2 = log st0 ++ evs ∧
    evs `prefix_of`
      [Print "Creating .app bundle...";
       CopyTree "BuildAssets/StepRepl.app" (StepRepl.bundle_path (current_platform st0));
       CopyTree (StepRepl.publish_path (current_platform st0))
                (StepRepl.macos_path (current_platform st0));
       Print StepRepl.codesign_warning].
Proof.
  intros Hhost%String.eqb_neq p template bundle publish macos Hcopy1 Hcopy2.
  split; [|split].
  - rewrite create_app_bundle_run. cbv zeta. fold p template bundle publish macos.
    rewrite Hcopy1. cbn [fst snd]. rewrite Hcopy2. cbn [fst snd].
    unfold bundle_notice. by rewrite Hhost.
  - assert (∀ r c, lookup_path (fs st) (publish ++ r) = Some (File c) →
                   lookup_path mid (publish ++ r) = Some (File c)) as Hkeep.
    { intros r c Hfile. eapply copytree_frame; [exact Hcopy1 | exact Hfile |].
      apply bundle_not_prefix_publish. }
    split; [apply split_macos_path|].
    split; [intros r; by apply copytree_subdir|].
    split; [|split].
    + intros r c Hr Hfile.
      pose proof (copytree_file _ _ _ _ _ _ Hcopy1 Hr Hfile) as Hmid.
      split; [done|]. intros Hout. by eapply copytree_frame.
    + intros r c Hr Hfile. eapply copytree_file; eauto.
    + intros r c old Hr Hfile Hold.
      pose proof (copytree_file _ _ _ _ _ _ Hcopy2 Hr (Hkeep _ _ Hfile)) as Hfinal.
      unfold landing in Hfinal. by rewrite Hold in Hfinal.
  - intros st0. rewrite create_app_bundle_run. cbv zeta.
    unfold bundle_notice. rewrite Hhost.
    destruct (copytree _ _ (fs st0)) as [[[]|e1] mid0]; cbn [fst snd].
    + destruct (copytree _ _ mid0) as [[[]|e2] final0]; cbn [fst snd];
        eexists; (split; [apply log_extend|]).
      * done.
      * by eexists [_].
    + eexists; split; [apply log_extend|]. by eexists [_; _].
Qed.

Lemma C7_warning_on_other_hosts_witness :
  let r := StepRepl.create_app_bundle linux_host sample_built in
  let out := ["bin"; "Release"; "net8.0"; "osx-x64"; "StepRepl.app"] in
  r.1 = Ok tt ∧
  last (log r.2) = Some (Print StepRepl.codesign_warning) ∧
  lookup_path (fs r.2) (out ++ ["Contents"; "Info.plist"]) = Some (File "plist") ∧
  lookup_path (fs r.2) (out ++ ["Contents"; "MacOS"; "StepRepl"])
  = Some (File "exe for osx-x64").
Proof.
  pose (mid := (copytree (split_path StepRepl.bundle_template)
                  (split_path (StepRepl.bundle_path "osx-x64"))
                  (fs sample_built)).2).
  pose (final := (copytree (split_path (StepRepl.publish_path "osx-x64"))
                    (split_path (StepRepl.macos_path "osx-x64")) mid).2).
  destruct (C7_warning_on_other_hosts linux_host sample_built mid final)
    as (Hrun & (_ & _ & Htemplate & _ & Hover) & _).
  - discriminate.
  - vm_compute. reflexivity.
  - vm_compute. reflexivity.
  - cbv zeta. rewrite Hrun. split; [reflexivity|]. split; [reflexivity|].
    cbn [fst snd fs]. split.
    + apply (Htemplate ["Contents"; "Info.plist"] "plist").
      * discriminate.
      * vm_compute. reflexivity.
      * vm_compute. intros [k Hk]. discriminate Hk.
    + apply (Hover ["StepRepl"] "exe for osx-x64" "stale").
      * discriminate.
      * vm_compute. reflexivity.
      * vm_compute. reflexivity.
Defined.

(** C8.  [open] as first argument: [current_platform] is still the empty
    string when [open_output_folder] runs, so the folder handed to the
    shell is [bin/Release/net8.0/] itself, on the hosts that open a folder
    at all; whatever status the shell command ends with, the script exits
    with status 0. *)
Theorem C8_open_uses_empty_platform h root prog rest :
  let r := StepRepl.execute h (prog :: "open" :: rest) root in
  r.1 = Raised (SystemExit 0) ∧ exit_status r.1 = 0 ∧
  current_platform r.2 = "" ∧
  log r.2 =
    (if String.eqb (sys_platform h) "darwin" then
       [System "open ./bin/Release/net8.0/"
               (run_shell h "open ./bin/Release/net8.0/" root).1]
     else if String.eqb (sys_platform h) "win32" then
       let cmd := "start " +:+ path_join h (getcwd h) "bin\Release\net8.0\" in
       [System cmd (run_shell h cmd root).1]
     else []).
Proof.
  intros r. subst r. unfold StepRepl.execute, StepRepl.main.
  cbn [length Nat.ltb Nat.leb lookup list_lookup argv_at]. py.
  rewrite open_output_folder_run. py.
  unfold after_open, folder_command.
  change (current_platform (with_platform "" (initial root))) with "".
  change (StepRepl.open_command "") with "open ./bin/Release/net8.0/".
  change (StepRepl.start_path "") with "bin\Release\net8.0\".
  destruct (String.eqb (sys_platform h) "darwin"); [done|].
  by destruct (String.eqb (sys_platform h) "win32").
Qed.

(** C9.  Without arguments, or with a first argument the dispatch does not
    know, the StepRepl script does nothing at all: it prints nothing, starts
    no process, and ends with status 0. *)
Theorem C9_unknown_argument_is_silent h root argv :
  ((length argv ≤ 1)%nat ∨
   ∃ a, argv !! 1%nat = Some a ∧ str_in a known_first_args = false) →
  let r := StepRepl.execute h argv root in
  r.1 = Ok tt ∧ exit_status r.1 = 0 ∧ log r.2 = [] ∧ fs r.2 = root.
Proof.
  intros Hargv r. subst r. unfold StepRepl.execute, StepRepl.main. py.
  destruct Hargv as [Hlen | (a & Ha & Hunknown)].
  - destruct argv as [|prog [|a argv]]; [done | done | cbn in Hlen; lia].
  - destruct argv as [|prog [|a' argv]]; [done..|]. injection Ha as ->.
    cbn [length Nat.ltb Nat.leb lookup list_lookup argv_at]. py.
    unfold known_first_args, str_in in Hunknown. cbn [existsb] in Hunknown.
    repeat (apply orb_false_elim in Hunknown as [? Hunknown]).
    unfold StepRepl.is_target_flag.
    repeat match goal with H : String.eqb a _ = false |- _ => rewrite H; clear H end.
    done.
Qed.

Lemma C9_unknown_argument_is_silent_witness :
  let r := StepRepl.execute linux_host ["publish.py"; "--all"] sample_tree in
  r.1 = Ok tt ∧ exit_status r.1 = 0 ∧ log r.2 = [] ∧ fs r.2 = sample_tree.
Proof.
  apply (C9_unknown_argument_is_silent linux_host sample_tree ["publish.py"; "--all"]).
  right. exists "--all". split; reflexivity.
Defined.

(** C10, as stated, fails on a host that is neither macOS nor Windows:
    there [open_output_folder] does nothing, so a successful build triggers
    no folder-open at all, and a successful [--target all] run triggers none
    instead of one per platform. *)
Lemma C10_no_folder_open_on_other_hosts :
  let one := StepRepl.execute linux_host ["publish.py"; "--target"; "win-x64"]
               sample_tree in
  let all := StepRepl.execute linux_host ["publish.py"; "--target"; "all"]
               sample_tree in
  one.1 = Raised (SystemExit 0) ∧
  log one.2 = [Print "Publishing for win-x64...";
               Run (StepRepl.build_command "win-x64") "/home/dev/Step" 0;
               Print "Publish completed for win-x64."] ∧
  shell_commands (log one.2) = [] ∧
  all.1 = Raised (SystemExit 0) ∧
  length (builds (log all.2)) = 3%nat ∧
  shell_commands (log all.2) = [].
Proof. vm_compute. done. Qed.

(** C10, amended.  Whenever the external build of a single-platform run has
    returned 0, [open_output_folder] runs on the state the build left,
    before any copy and whatever the target, and for a name starting with
    [osx] [create_app_bundle] runs on the state it leaves, whether or not
    the bundle then succeeds.  [open_output_folder] hands one command to the
    shell on macOS ([open]) and on Windows ([start]) and does nothing on any
    other host.  A [--target all] run whose three builds returned 0 has the
    folder command of each platform, in order, right after that platform's
    build: one per platform on macOS and Windows, none elsewhere. *)
Theorem C10_folder_command_after_build_before_bundle h root prog flag rest :
  StepRepl.is_target_flag flag = true →
  let parent := path_dirname h (getcwd h) in
  (∀ p status,
     open_events h p status =
       if String.eqb (sys_platform h) "darwin" then
         [System ("open ./bin/Release/net8.0/" +:+ p) status]
       else if String.eqb (sys_platform h) "win32" then
         [System ("start " +:+ path_join h (getcwd h) ("bin\Release\net8.0\" +:+ p))
                 status]
       else []) ∧
  (∀ p, str_in p StepRepl.platforms = true →
     let r := StepRepl.execute h (prog :: flag :: p :: rest) root in
     let cmd := StepRepl.build_command p in
     (run_process h cmd parent root).1 = 0 →
     let built :=
       {| current_platform := p;
          fs := (run_process h cmd parent root).2;
          log := [Print ("Publishing for " +:+ p +:+ "...");
                  Run cmd parent 0;
                  Print ("Publish completed for " +:+ p +:+ ".")] |} in
     ∃ opened status tail,
       StepRepl.open_output_folder h built = (Ok tt, opened) ∧
       log opened = log built ++ open_events h p status ∧
       (∀ c, folder_command h p = Some c → status = (run_shell h c (fs built)).1) ∧
       r.2 = (if String.prefix "osx" p
              then (StepRepl.create_app_bundle h opened).2 else opened) ∧
       log r.2 = log opened ++ tail ∧
       tail `prefix_of` (if String.prefix "osx" p then bundle_events h p else []) ∧
       (r.1 = Raised (SystemExit 0) → log r.2 = build_events h p status)) ∧
  (let r := StepRepl.execute h (prog :: flag :: "all" :: rest) root in
   builds (log r.2) =
     map (λ p, (StepRepl.build_command p, parent, 0)) StepRepl.platforms →
   (∃ s1 s2 s3 tail,
      log r.2 = build_events h "win-x64" s1 ++ build_events h "linux-x64" s2
                ++ [Print "Publishing for osx-x64...";
                    Run (StepRepl.build_command "osx-x64") parent 0;
                    Print "Publish completed for osx-x64."]
                ++ open_events h "osx-x64" s3 ++ tail ∧
      tail `prefix_of` bundle_events h "osx-x64") ∧
   shell_commands (log r.2) = omap (folder_command h) StepRepl.platforms).
Proof.
  intros Hflag parent. split; [|split].
  - intros p status. unfold open_events, folder_command.
    destruct (String.eqb (sys_platform h) "darwin"); [done|].
    by destruct (String.eqb (sys_platform h) "win32").
  - intros p Hp r cmd Hrc built. subst r.
    unfold StepRepl.execute. rewrite main_target by done.
    assert (String.eqb p "all" = false) as Hall
      by (apply String.eqb_neq; intros ->; done).
    rewrite Hp, Hall. cbn [negb andb].
    set (start := with_platform p (initial root)).
    assert ((run_process h (StepRepl.build_command (current_platform start))
               (path_dirname h (getcwd h)) (fs start)).1 = 0) as Hrc' by exact Hrc.
    pose proof (do_build_zero_run h start Hrc') as Hrun.
    change (current_platform start) with p in Hrun.
    change (built_state h start) with (after_open h built) in Hrun.
    destruct (built_state_log h start) as [status [Hopen Hstatus]].
    cbv zeta in Hopen, Hstatus.
    change (built_state h start) with (after_open h built) in Hopen.
    change (current_platform start) with p in Hopen, Hstatus.
    change (fs start) with root in Hstatus.
    change (log start) with (@nil event) in Hopen. cbn [app] in Hopen.
    destruct (create_app_bundle_events h (after_open h built))
      as (tail & Hlog & Hpre & Hfull).
    rewrite current_platform_after_open in Hpre, Hfull.
    change (current_platform built) with p in Hpre, Hfull.
    exists (after_open h built), status.
    exists (if String.prefix "osx" p then tail else []).
    split; [apply open_output_folder_run|]. split; [exact Hopen|].
    split; [exact Hstatus|]. rewrite exit_after_state, Hrun.
    destruct (String.prefix "osx" p) eqn:Hosx.
    + split; [done|]. split; [done|]. split; [done|].
      intros Hok. apply exit_after_ok in Hok as [[[] Hok] | Hexit].
      * rewrite Hlog, (Hfull Hok), Hopen. unfold build_events.
        rewrite Hosx. reflexivity.
      * pose proof (create_app_bundle_raises h (after_open h built) _ Hexit)
          as [? | ?]; done.
    + cbn [fst snd]. split; [done|]. split; [by rewrite app_nil_r|].
      split; [done|]. intros _. rewrite Hopen. unfold build_events.
      rewrite Hosx, app_nil_r. reflexivity.
  - intros r Hbuilds. subst r. revert Hbuilds.
    unfold StepRepl.execute. rewrite main_target by done.
    eval_tests. cbn [negb andb]. rewrite exit_after_state, all_loop_run.
    set (st1 := with_platform "win-x64" _).
    pose proof (do_build_log h st1) as B1. cbv zeta in B1.
    destruct B1 as (t1 & L1 & N1 & F1 & O1 & P1).
    change (current_platform st1) with "win-x64" in *.
    change (log st1) with (@nil event) in L1. cbn [app] in L1.
    fold parent in L1, F1, O1, P1.
    destruct (StepRepl.do_build h st1) as [[[]|e1] s1] eqn:H1; cbn [fst snd] in *;
      cycle 1.
    { rewrite L1, builds_print, builds_run, N1. intros Hb. discriminate Hb. }
    set (st2 := with_platform "linux-x64" s1).
    pose proof (do_build_log h st2) as B2. cbv zeta in B2.
    destruct B2 as (t2 & L2 & N2 & F2 & O2 & P2).
    change (current_platform st2) with "linux-x64" in *.
    change (log st2) with (log s1) in L2.
    fold parent in L2, F2, O2, P2.
    destruct (StepRepl.do_build h st2) as [[[]|e2] s2] eqn:H2; cbn [fst snd] in *;
      cycle 1.
    { rewrite L2, L1, (builds_block _ _ _ _ _ _ N2), builds_print, builds_run, N1.
      intros Hb. discriminate Hb. }
    set (st3 := with_platform "osx-x64" s2).
    pose proof (do_build_log h st3) as B3. cbv zeta in B3.
    destruct B3 as (t3 & L3 & N3 & _).
    change (current_platform st3) with "osx-x64" in *.
    change (log st3) with (log s2) in L3.
    fold parent in L3.
    assert (log match StepRepl.do_build h st3 with
                | (Ok _, s3) => (Ok tt, s3)
                | (Raised e, s3) => (Raised e, s3)
                end.2 = log (StepRepl.do_build h st3).2) as ->
      by (by destruct (StepRepl.do_build h st3) as [[[]|e3] s3]).
    intros Hb. 
    assert ((run_process h (StepRepl.build_command (current_platform st3))
               (path_dirname h (getcwd h)) (fs st3)).1 = 0) as Hrc3.
    { rewrite L3, L2, L1 in Hb.
      rewrite (builds_block _ _ _ _ _ _ N3), (builds_block _ _ _ _ _ _ N2),
        builds_print, builds_run, N1 in Hb.
      cbn in Hb. by injection Hb. }
    destruct (do_build_zero_log h st3 Hrc3) as (a3 & tail & L3' & Hpre & _).
    change (current_platform st3) with "osx-x64" in L3', Hpre.
    change (log st3) with (log s2) in L3'. fold parent in L3'.
    change (String.prefix "osx" "osx-x64") with true in Hpre. cbv iota in Hpre.
    destruct (do_build_ok_log _ _ _ H1) as [a1 K1].
    destruct (do_build_ok_log _ _ _ H2) as [a2 K2].
    change (log st2) with (log s1) in K2.
    change (log st1) with (@nil event) in K1. cbn [app] in K1.
    change (current_platform st1) with "win-x64" in K1.
    change (current_platform st2) with "linux-x64" in K2.
    rewrite K2, K1 in L3'. rewrite L3'.
    split.
    + exists a1, a2, a3, tail. split; [by rewrite <- !app_assoc|done].
    + rewrite !shell_commands_app, !shell_commands_build_events,
        omap_folder_commands.
      destruct Hpre as [rest' Hrest].
      assert (shell_commands tail = []) as ->.
      { assert (shell_commands (tail ++ rest') = []) as Happ
          by (by rewrite <- Hrest).
        rewrite shell_commands_app in Happ. by apply app_eq_nil in Happ as [? _]. }
      unfold open_events. rewrite <- app_assoc. do 2 f_equal.
      by destruct (folder_command h "osx-x64").
Qed.

Lemma C10_folder_command_after_build_before_bundle_witness :
  shell_commands
    (log (StepRepl.execute mac_host ["publish.py"; "--target"; "all"] sample_tree).2)
  = ["open ./bin/Release/net8.0/win-x64"; "open ./bin/Release/net8.0/linux-x64";
     "open ./bin/Release/net8.0/osx-x64"].
Proof.
  destruct (C10_folder_command_after_build_before_bundle mac_host sample_tree
              "publish.py" "--target" [] eq_refl) as (_ & _ & Hall).
  destruct Hall as [_ Hcommands]; [vm_compute; reflexivity|].
  exact Hcommands.
Defined.


(** * Further properties of the two scripts *)

(** ** Copies leave the rest of the tree alone *)

(** A path that leaves the destination path at some component is not
    touched by [into_dir], whatever is found or created on the way. *)
Lemma into_dir_diverge c : ∀ k j p q f m m' ok,
  k ≠ j →
  into_dir (c ++ k :: p) f m = Some (m', ok) →
  lookup_path m' (c ++ j :: q) = lookup_path m (c ++ j :: q).
Proof.
  induction c as [|x c IH]; intros k j p q f m m' ok Hne; cbn.
  - destruct (m !! k) as [[y|d]|]; [done| |].
    + destruct (into_dir p f d) as [[m'' ok']|]; [|done].
      intros [= <- <-]. by rewrite lookup_insert_ne.
    + destruct (into_dir p f ∅) as [[m'' ok']|]; [|done].
      intros [= <- <-]. by rewrite lookup_insert_ne.
  - destruct (m !! x) as [[y|d]|] eqn:Hx; [done| |].
    + destruct (into_dir (c ++ k :: p) f d) as [[m'' ok']|] eqn:Hrec; [|done].
      intros [= <- <-]. rewrite lookup_insert_eq. by eapply IH.
    + destruct (into_dir (c ++ k :: p) f ∅) as [[m'' ok']|] eqn:Hrec; [|done].
      intros [= <- <-]. rewrite lookup_insert_eq.
      rewrite (IH _ _ _ _ _ _ _ _ Hne Hrec).
      destruct c; cbn; by rewrite lookup_empty.
Qed.

Lemma copytree_diverge src c k j p q root res root' :
  k ≠ j →
  copytree src (c ++ k :: p) root = (res, root') →
  lookup_path root' (c ++ j :: q) = lookup_path root (c ++ j :: q).
Proof.
  unfold copytree. intros Hne Hcopy.
  destruct (lookup_path root src) as [[x|sm]|];
    [by injection Hcopy as _ <-| |by injection Hcopy as _ <-].
  destruct (into_dir (c ++ k :: p) (copy_dir sm) root) as [[m' ok]|] eqn:Hinto;
    [|by injection Hcopy as _ <-].
  assert (root' = m') as -> by (by destruct ok; injection Hcopy as _ <-).
  by eapply into_dir_diverge.
Qed.

Lemma copytree_not_dir src dst root :
  is_dir (lookup_path root src) = false →
  copytree src dst root = (Raised OSError, root).
Proof.
  unfold copytree. by destruct (lookup_path root src) as [[x|sm]|].
Qed.

Lemma copies_app l1 l2 : copies (l1 ++ l2) = copies l1 ++ copies l2.
Proof. apply omap_app. Qed.


(** ** [create_app_bundle] *)

Lemma create_app_bundle_tree h st :
  let p := current_platform st in
  let c1 := copytree (split_path StepRepl.bundle_template)
                     (split_path (StepRepl.bundle_path p)) (fs st) in
  let c2 := copytree (split_path (StepRepl.publish_path p))
                     (split_path (StepRepl.macos_path p)) c1.2 in
  fs (StepRepl.create_app_bundle h st).2 =
  match c1.1 with Ok _ => c2.2 | Raised _ => c1.2 end.
Proof.
  rewrite create_app_bundle_run. cbv zeta.
  destruct (copytree _ _ (fs st)) as [[[]|e1] mid]; cbn [fst snd]; [|done].
  by destruct (copytree _ _ mid) as [[[]|e2] final].
Qed.

(** X8.  Without the bundle template, that is when [BuildAssets/StepRepl.app]
    is not a directory, [create_app_bundle] raises an [OSError] at the first
    copy: the second copy is not attempted, no closing line is printed, and
    the tree is left as it was. *)
Theorem X8_missing_template_fails_first_copy h st :
  is_dir (lookup_path (fs st) ["BuildAssets"; "StepRepl.app"]) = false →
  StepRepl.create_app_bundle h st =
    (Raised OSError,
     {| current_platform := current_platform st;
        fs := fs st;
        log := log st ++
          [Print "Creating .app bundle...";
           CopyTree "BuildAssets/StepRepl.app"
                    (StepRepl.bundle_path (current_platform st))] |}).
Proof.
  intros Hmissing. rewrite create_app_bundle_run. cbv zeta.
  change (split_path StepRepl.bundle_template) with ["BuildAssets"; "StepRepl.app"].
  by rewrite (copytree_not_dir _ _ _ Hmissing).
Qed.

Lemma X8_missing_template_fails_first_copy_witness :
  exit_status (StepRepl.create_app_bundle linux_host
                 (with_platform "osx-x64" (initial ∅))).1 = 1.
Proof.
  rewrite (X8_missing_template_fails_first_copy linux_host
             (with_platform "osx-x64" (initial ∅))); reflexivity.
Defined.

(** X9.  When the template copy succeeds but the build left no [publish]
    directory for the platform, the second copy raises an [OSError]: the
    bundle keeps the template copy exactly as the first copy left it, and
    the closing line (warning or code-signing notice) is not printed. *)
Theorem X9_missing_publish_keeps_template_copy h st mid :
  let p := current_platform st in
  copytree (split_path StepRepl.bundle_template)
           (split_path (StepRepl.bundle_path p)) (fs st) = (Ok tt, mid) →
  is_dir (lookup_path (fs st) (split_path (StepRepl.publish_path p))) = false →
  StepRepl.create_app_bundle h st =
    (Raised OSError,
     {| current_platform := p;
        fs := mid;
        log := log st ++
          [Print "Creating .app bundle...";
           CopyTree "BuildAssets/StepRepl.app" (StepRepl.bundle_path p);
           CopyTree (StepRepl.publish_path p) (StepRepl.macos_path p)] |}).
Proof.
  intros p Hcopy Hmissing. rewrite create_app_bundle_run. cbv zeta. fold p.
  rewrite Hcopy. cbn [fst snd].
  assert (lookup_path mid (split_path (StepRepl.publish_path p))
          = lookup_path (fs st) (split_path (StepRepl.publish_path p))) as Hsame.
  { rewrite split_publish_path, split_bundle_path in *.
    rewrite !app_assoc. rewrite !app_assoc in Hcopy.
    eapply (copytree_diverge _ _ "StepRepl.app" "publish" [] []);
      [discriminate | exact Hcopy]. }
  rewrite <- Hsame in Hmissing.
  by rewrite (copytree_not_dir _ _ _ Hmissing).
Qed.

Lemma X9_missing_publish_keeps_template_copy_witness :
  (StepRepl.create_app_bundle linux_host
     (with_platform "osx-x64" (initial sample_tree))).1 = Raised OSError ∧
  lookup_path (fs (StepRepl.create_app_bundle linux_host
                     (with_platform "osx-x64" (initial sample_tree))).2)
    ["bin"; "Release"; "net8.0"; "osx-x64"; "StepRepl.app"; "Contents"; "Info.plist"]
  = Some (File "plist").
Proof.
  pose (mid := (copytree (split_path StepRepl.bundle_template)
                  (split_path (StepRepl.bundle_path "osx-x64")) sample_tree).2).
  rewrite (X9_missing_publish_keeps_template_copy linux_host
             (with_platform "osx-x64" (initial sample_tree)) mid).
  - split; [reflexivity | vm_compute; reflexivity].
  - vm_compute. reflexivity.
  - vm_compute. reflexivity.
Defined.

(** X10.  For a supported platform and whatever its outcome,
    [create_app_bundle] changes nothing below [BuildAssets] and nothing below
    the [publish] directory of the platform: it only ever writes into the
    bundle. *)
Theorem X10_bundle_leaves_its_sources h st r :
  str_in (current_platform st) StepRepl.platforms = true →
  let p := current_platform st in
  let st' := (StepRepl.create_app_bundle h st).2 in
  lookup_path (fs st') ("BuildAssets" :: r) = lookup_path (fs st) ("BuildAssets" :: r) ∧
  lookup_path (fs st') (split_path (StepRepl.publish_path p) ++ r)
  = lookup_path (fs st) (split_path (StepRepl.publish_path p) ++ r).
Proof.
  intros _ p st'. subst st'. rewrite create_app_bundle_tree. cbv zeta. fold p.
  set (c1 := copytree _ _ (fs st)).
  set (c2 := copytree _ _ c1.2).
  assert (∀ q, lookup_path c1.2 ("BuildAssets" :: q) = lookup_path (fs st) ("BuildAssets" :: q)
               ∧ lookup_path c1.2 (split_path (StepRepl.publish_path p) ++ q)
                 = lookup_path (fs st) (split_path (StepRepl.publish_path p) ++ q)) as H1.
  { intros q. pose proof (surjective_pairing c1) as Hc1. unfold c1 in Hc1 at 1.
    rewrite split_bundle_path in Hc1. split.
    - eapply (copytree_diverge _ [] "bin" "BuildAssets"); [discriminate | exact Hc1].
    - rewrite split_publish_path, !app_assoc. rewrite !app_assoc in Hc1.
      rewrite <- (app_assoc _ ["publish"] q).
      eapply (copytree_diverge _ _ "StepRepl.app" "publish" []);
        [discriminate | exact Hc1]. }
  assert (∀ q, lookup_path c2.2 ("BuildAssets" :: q) = lookup_path c1.2 ("BuildAssets" :: q)
               ∧ lookup_path c2.2 (split_path (StepRepl.publish_path p) ++ q)
                 = lookup_path c1.2 (split_path (StepRepl.publish_path p) ++ q)) as H2.
  { intros q. pose proof (surjective_pairing c2) as Hc2. unfold c2 in Hc2 at 1.
    rewrite split_macos_path, split_bundle_path in Hc2. split.
    - eapply (copytree_diverge _ [] "bin" "BuildAssets"); [discriminate | exact Hc2].
    - rewrite split_publish_path, !app_assoc. rewrite <- !app_assoc in Hc2.
      rewrite !app_assoc in Hc2.
      rewrite <- (app_assoc _ ["publish"] q).
      rewrite <- (app_assoc _ ["StepRepl.app"] ["Contents"; "MacOS"]) in Hc2.
      eapply (copytree_diverge _ _ "StepRepl.app" "publish");
        [discriminate | exact Hc2]. }
  destruct (c1.1); [|apply H1].
  destruct (H1 r) as [<- <-]. apply H2.
Qed.

Lemma X10_bundle_leaves_its_sources_witness :
  lookup_path (fs (StepRepl.create_app_bundle linux_host sample_built).2)
    ["BuildAssets"; "StepRepl.app"; "Contents"; "MacOS"; "StepRepl"]
  = Some (File "stale") ∧
  lookup_path (fs (StepRepl.create_app_bundle linux_host sample_built).2)
    (split_path (StepRepl.publish_path "osx-x64") ++ ["StepRepl"])
  = Some (File "exe for osx-x64").
Proof.
  destruct (X10_bundle_leaves_its_sources linux_host sample_built
              ["StepRepl.app"; "Contents"; "MacOS"; "StepRepl"] eq_refl)
    as [Hassets _].
  destruct (X10_bundle_leaves_its_sources linux_host sample_built
              ["StepRepl"] eq_refl) as [_ Hpublish].
  split.
  - rewrite Hassets. vm_compute. reflexivity.
  - etransitivity; [exact Hpublish|]. vm_compute. reflexivity.
Defined.

(** X11.  [create_app_bundle] starts no process on any host: the events it
    adds are lines printed and at most two tree copies, the template copy
    first.  On macOS a successful run ends with the line [Codesigning...];
    no signing tool is run. *)
Theorem X11_bundle_starts_no_process h st :
  let r := StepRepl.create_app_bundle h st in
  let p := current_platform st in
  ∃ evs,
    log r.2 = log st ++ evs ∧
    builds evs = [] ∧ shell_commands evs = [] ∧
    copies evs `prefix_of`
      [("BuildAssets/StepRepl.app", StepRepl.bundle_path p);
       (StepRepl.publish_path p, StepRepl.macos_path p)] ∧
    copies evs ≠ [] ∧
    (sys_platform h = "darwin" → r.1 = Ok tt →
     last evs = Some (Print "Codesigning...")).
Proof.
  cbv zeta. rewrite create_app_bundle_run. cbv zeta.
  destruct (copytree _ _ (fs st)) as [[[]|e1] mid]; cbn [fst snd].
  - destruct (copytree _ _ mid) as [[[]|e2] final]; cbn [fst snd].
    + eexists. split; [apply log_extend|]. split; [done|]. split; [done|].
      split; [done|]. split; [done|].
      intros Hmac _. unfold bundle_notice. rewrite Hmac. done.
    + eexists. split; [apply log_extend|]. split; [done|]. split; [done|].
      split; [done|]. split; [done|]. done.
  - eexists. split; [apply log_extend|]. split; [done|]. split; [done|].
    split; [by eexists [_]|]. split; [done|]. done.
Qed.

Lemma X11_bundle_starts_no_process_witness :
  ∃ evs,
    log (StepRepl.create_app_bundle mac_host
           (built_state mac_host sample_start)).2
    = log (built_state mac_host sample_start) ++ evs ∧
    last evs = Some (Print "Codesigning...").
Proof.
  destruct (X11_bundle_starts_no_process mac_host
              (built_state mac_host sample_start))
    as (evs & Hlog & _ & _ & _ & _ & Hlast).
  exists evs. split; [exact Hlog|].
  apply Hlast; [reflexivity | vm_compute; reflexivity].
Defined.


(** ** The command line of StepRepl/publish.py *)

(** X1.  [--help] as first argument prints the usage text once and exits
    with status 0, whatever follows it on the command line: nothing is
    built, opened or copied and the tree is untouched. *)
Theorem X1_help_only_prints h root prog rest :
  let r := StepRepl.execute h (prog :: "--help" :: rest) root in
  r.1 = Raised (SystemExit 0) ∧ exit_status r.1 = 0 ∧
  log r.2 = [Print StepRepl.help_text] ∧ fs r.2 = root.
Proof.
  intros r. subst r. unfold StepRepl.execute, StepRepl.main.
  cbn [length Nat.ltb Nat.leb lookup list_lookup argv_at]. py. done.
Qed.

(** X2.  The four spellings of the target flag are interchangeable: two
    command lines that differ only in which of [--target], [-t], [-p],
    [--platform] comes first run identically. *)
Theorem X2_target_flags_are_aliases h root prog f1 f2 args :
  StepRepl.is_target_flag f1 = true →
  StepRepl.is_target_flag f2 = true →
  StepRepl.execute h (prog :: f1 :: args) root =
  StepRepl.execute h (prog :: f2 :: args) root.
Proof.
  intros H1 H2. unfold StepRepl.execute. destruct args as [|target rest].
  - by rewrite !main_no_target.
  - by rewrite !main_target.
Qed.

Lemma X2_target_flags_are_aliases_witness :
  StepRepl.execute linux_host ["publish.py"; "-p"; "win-x64"] sample_tree =
  StepRepl.execute linux_host ["publish.py"; "--platform"; "win-x64"] sample_tree.
Proof.
  apply (X2_target_flags_are_aliases linux_host sample_tree "publish.py"
           "-p" "--platform" ["win-x64"]); reflexivity.
Defined.

(** X3.  Only [argv[1]] and [argv[2]] are read: the name the script was
    started under and every argument after the second change nothing. *)
Theorem X3_only_two_arguments_are_read h root prog prog' a1 a2 rest rest' :
  StepRepl.execute h (prog :: a1 :: a2 :: rest) root =
  StepRepl.execute h (prog' :: a1 :: a2 :: rest') root ∧
  StepRepl.execute h [prog; a1] root = StepRepl.execute h [prog'; a1] root ∧
  StepRepl.execute h [prog] root = StepRepl.execute h [] root.
Proof.
  unfold StepRepl.execute, StepRepl.main.
  cbn [length Nat.ltb Nat.leb lookup list_lookup argv_at]. done.
Qed.

Lemma print_line_inj a b : Print ("  " +:+ a) = Print ("  " +:+ b) → a = b.
Proof.
  intros H. injection H as H. exact H.
Qed.

(** X4.  [--platforms] and [--target] agree: the names listed by
    [--platforms], two spaces before each, are exactly the targets other
    than [all] that [--target] does not reject as invalid. *)
Theorem X4_listed_platforms_are_the_accepted_targets h root prog flag x :
  StepRepl.is_target_flag flag = true →
  x ≠ "all" →
  let listing := StepRepl.execute h [prog; "--platforms"] root in
  let r := StepRepl.execute h [prog; flag; x] root in
  Print ("  " +:+ x) ∈ log listing.2 ↔
  ¬ (∃ line, log r.2 = [Print line] ∧ r.1 = Raised (SystemExit 1)).
Proof.
  intros Hflag Hall%String.eqb_neq listing r.
  assert (log listing.2 =
            [Print "Available platforms:";
             Print ("  " +:+ "win-x64"); Print ("  " +:+ "linux-x64");
             Print ("  " +:+ "osx-x64");
             Print "Use '--target <platform>' to publish for a specific platform. '--target all' publishes for all platforms."])
    as ->.
  { subst listing. unfold StepRepl.execute, StepRepl.main.
    cbn [length Nat.ltb Nat.leb lookup list_lookup argv_at for_each StepRepl.platforms].
    py. done. }
  subst r. unfold StepRepl.execute. rewrite main_target by done. rewrite Hall.
  destruct (str_in x StepRepl.platforms) eqn:Hin; cbn [negb andb].
  - split.
    + intros _ (line & Hlog & Hexit).
      pose proof (do_build_log h (with_platform x (initial root))) as Hb.
      cbv zeta in Hb. destruct Hb as (tail & Hl & _).
      rewrite exit_after_state, Hl in Hlog. done.
    + intros _. unfold str_in, StepRepl.platforms in Hin. cbn [existsb] in Hin.
      rewrite !orb_true_iff, !String.eqb_eq in Hin.
      rewrite !elem_of_cons.
      destruct Hin as [-> | [-> | [-> | [=]]]]; auto.
  - split.
    + intros Hlisted. exfalso.
      unfold str_in, StepRepl.platforms in Hin. cbn [existsb] in Hin.
      repeat (apply orb_false_elim in Hin as [? Hin]).
      repeat match goal with H : String.eqb _ _ = false |- _ =>
        apply String.eqb_neq in H end.
      rewrite !elem_of_cons in Hlisted.
      destruct Hlisted as [H'|[H'|[H'|[H'|[H'|H']]]]];
        try (apply print_line_inj in H'; congruence); try done.
      by apply elem_of_nil in H'.
    + intros Hnot. destruct Hnot. eexists. split; done.
Qed.

Lemma X4_listed_platforms_are_the_accepted_targets_witness :
  Print "  linux-x64"
  ∈ log (StepRepl.execute linux_host ["publish.py"; "--platforms"] sample_tree).2.
Proof.
  apply (X4_listed_platforms_are_the_accepted_targets linux_host sample_tree
           "publish.py" "-t" "linux-x64"); [reflexivity | discriminate |].
  intros (line & Hlog & _). vm_compute in Hlog. discriminate Hlog.
Defined.


(** ** Exit status *)

Lemma all_loop_raises h st e :
  (for_each StepRepl.platforms
     (λ platform, assign_current_platform platform;; StepRepl.do_build h) st).1
  = Raised e →
  exit_status (Raised e) = 1.
Proof.
  rewrite all_loop_run.
  destruct (StepRepl.do_build h (with_platform "win-x64" st)) as [[[]|e1] s1] eqn:H1.
  - destruct (StepRepl.do_build h (with_platform "linux-x64" s1)) as [[[]|e2] s2] eqn:H2.
    + destruct (StepRepl.do_build h (with_platform "osx-x64" s2)) as [[[]|e3] s3] eqn:H3;
        [done|].
      intros [= <-]. eapply do_build_raises. by rewrite H3.
    + intros [= <-]. eapply do_build_raises. by rewrite H2.
  - intros [= <-]. eapply do_build_raises. by rewrite H1.
Qed.

Lemma exit_after_status {A} (r : result A * State) :
  (∀ e, r.1 = Raised e → exit_status (Raised e) = 1) →
  exit_status (exit_after 0 r).1 = 0 ∨ exit_status (exit_after 0 r).1 = 1.
Proof.
  destruct r as [[a|e] st]; cbn; [by left|]. intros H. right. by apply H.
Qed.

(** X5.  Whatever the command line, the host and the tree, the StepRepl
    script ends with status 0 or 1: the return code of a failed build is
    carried by the exception but never becomes the exit status. *)
Theorem X5_exit_status_is_0_or_1 h argv root :
  let r := StepRepl.execute h argv root in
  exit_status r.1 = 0 ∨ exit_status r.1 = 1.
Proof.
  intros r. subst r. unfold StepRepl.execute.
  destruct argv as [|prog [|a1 args]]; [by left | by left |].
  destruct (StepRepl.is_target_flag a1) eqn:Hflag.
  - destruct args as [|target rest].
    + rewrite main_no_target by done. by right.
    + rewrite main_target by done.
      destruct (negb _ && negb _); [by right|].
      destruct (String.eqb target "all").
      * apply exit_after_status. apply all_loop_raises.
      * apply exit_after_status. apply do_build_raises.
  - unfold StepRepl.main.
    cbn [length Nat.ltb Nat.leb lookup list_lookup argv_at]. py.
    destruct (String.eqb a1 "--help"); py; [by left|].
    destruct (String.eqb a1 "--platforms").
    { cbn [for_each StepRepl.platforms]. py. by left. }
    rewrite Hflag. destruct (String.eqb a1 "open"); py; [|by left].
    rewrite open_output_folder_run. py. by left.
Qed.

(** X6.  A supported target whose name does not start with [osx] (the
    Windows and Linux platforms) never gets a bundle: nothing is copied, the
    run ends with status 0 exactly when the build returned 0, and the final
    state is then the one the build and the folder-open left. *)
Theorem X6_other_targets_are_not_bundled h root prog flag p rest :
  StepRepl.is_target_flag flag = true →
  str_in p StepRepl.platforms = true →
  String.prefix "osx" p = false →
  let r := StepRepl.execute h (prog :: flag :: p :: rest) root in
  let rc := (run_process h (StepRepl.build_command p)
               (path_dirname h (getcwd h)) root).1 in
  copies (log r.2) = [] ∧
  (exit_status r.1 = 0 ↔ rc = 0) ∧
  (rc = 0 → r.2 = built_state h (with_platform p (initial root))).
Proof.
  intros Hflag Hp Hosx r rc. subst r.
  unfold StepRepl.execute. rewrite main_target by done.
  assert (String.eqb p "all" = false) as Hall
    by (apply String.eqb_neq; intros ->; done).
  rewrite Hp, Hall. cbn [negb andb].
  rewrite do_build_run. cbv zeta.
  change (current_platform (with_platform p (initial root))) with p.
  change (fs (with_platform p (initial root))) with root.
  fold rc. rewrite Hosx.
  destruct (rc =? 0)%Z eqn:Hrc.
  - apply Z.eqb_eq in Hrc. cbn [exit_after fst snd].
    split; [|split; [done|]].
    + destruct (after_open_events h (extend (with_platform p (initial root))
        [Print ("Publishing for " +:+ p +:+ "...");
         Run (StepRepl.build_command p) (path_dirname h (getcwd h)) rc;
         Print ("Publish completed for " +:+ p +:+ ".")]
        (run_process h (StepRepl.build_command p) (path_dirname h (getcwd h)) root).2))
        as [status ->].
      rewrite log_extend, copies_app. unfold open_events.
      by destruct (folder_command _ _).
    + intros _. unfold built_state.
      change (current_platform (with_platform p (initial root))) with p.
      change (fs (with_platform p (initial root))) with root.
      fold rc. by rewrite Hrc.
  - apply Z.eqb_neq in Hrc. cbn [exit_after fst snd].
    split; [done|]. split; [|done]. done.
Qed.

Lemma X6_other_targets_are_not_bundled_witness :
  copies (log (StepRepl.execute linux_host ["publish.py"; "--target"; "win-x64"]
                 sample_tree).2) = [].
Proof.
  exact (proj1 (X6_other_targets_are_not_bundled linux_host sample_tree
                  "publish.py" "--target" "win-x64" [] eq_refl eq_refl eq_refl)).
Defined.

Lemma create_app_bundle_status h st :
  let p := current_platform st in
  let c1 := copytree (split_path StepRepl.bundle_template)
                     (split_path (StepRepl.bundle_path p)) (fs st) in
  let c2 := copytree (split_path (StepRepl.publish_path p))
                     (split_path (StepRepl.macos_path p)) c1.2 in
  (StepRepl.create_app_bundle h st).1 = Ok tt ↔ c1.1 = Ok tt ∧ c2.1 = Ok tt.
Proof.
  rewrite create_app_bundle_run. cbv zeta.
  destruct (copytree _ _ (fs st)) as [[[]|e1] mid]; cbn [fst snd];
    [|by split; [|intros [? _]]].
  destruct (copytree _ _ mid) as [[[]|e2] final]; cbn [fst snd];
    by split; [|intros [_ ?]].
Qed.

Lemma exit_after_zero_iff (r : result unit * State) :
  (∀ e, r.1 = Raised e → exit_status (Raised e) = 1) →
  exit_status (exit_after 0 r).1 = 0 ↔ r.1 = Ok tt.
Proof.
  destruct r as [[[]|e] st]; cbn; [done|]. intros H.
  specialize (H e eq_refl). cbn in H. rewrite H. done.
Qed.

(** X7.  A supported target whose name starts with [osx] ends with status 0
    exactly when the build returned 0 and both copies of [create_app_bundle]
    succeeded.  The line [Publish completed for ...] is printed as soon as
    the build has returned 0: a run that prints it can still fail, with
    status 1, at the bundle. *)
Theorem X7_macos_target_needs_build_and_bundle h root prog flag p rest :
  StepRepl.is_target_flag flag = true →
  str_in p StepRepl.platforms = true →
  String.prefix "osx" p = true →
  let r := StepRepl.execute h (prog :: flag :: p :: rest) root in
  let rc := (run_process h (StepRepl.build_command p)
               (path_dirname h (getcwd h)) root).1 in
  let before := fs (built_state h (with_platform p (initial root))) in
  let c1 := copytree (split_path StepRepl.bundle_template)
                     (split_path (StepRepl.bundle_path p)) before in
  let c2 := copytree (split_path (StepRepl.publish_path p))
                     (split_path (StepRepl.macos_path p)) c1.2 in
  (exit_status r.1 = 0 ↔ rc = 0 ∧ c1.1 = Ok tt ∧ c2.1 = Ok tt) ∧
  (exit_status r.1 = 0 ∨ exit_status r.1 = 1) ∧
  (Print ("Publish completed for " +:+ p +:+ ".") ∈ log r.2 ↔ rc = 0).
Proof.
  intros Hflag Hp Hosx r rc before c1 c2. subst r.
  unfold StepRepl.execute. rewrite main_target by done.
  assert (String.eqb p "all" = false) as Hall
    by (apply String.eqb_neq; intros ->; done).
  rewrite Hp, Hall. cbn [negb andb].
  set (start := with_platform p (initial root)) in *.
  pose proof (do_build_raises h start) as Hraises.
  pose proof (do_build_run h start) as Hrun. cbv zeta in Hrun.
  change (current_platform start) with p in Hrun.
  change (fs start) with root in Hrun. fold rc in Hrun. rewrite Hosx in Hrun.
  pose proof (create_app_bundle_status h (built_state h start)) as Hstatus.
  cbv zeta in Hstatus. rewrite current_platform_built_state in Hstatus.
  change (current_platform start) with p in Hstatus. fold before c1 c2 in Hstatus.
  pose proof (create_app_bundle_log h (built_state h start)) as (evs & Hlog & _).
  destruct (after_open_log h (extend start
              [Print ("Publishing for " +:+ p +:+ "...");
               Run (StepRepl.build_command p) (path_dirname h (getcwd h)) 0;
               Print ("Publish completed for " +:+ p +:+ ".")]
              (run_process h (StepRepl.build_command p)
                 (path_dirname h (getcwd h)) root).2)) as (evs0 & Hopen & _).
  match type of Hopen with
  | log ?s = _ => change s with (built_state h start) in Hopen
  end.
  rewrite Hopen, log_extend in Hlog.
  destruct (rc =? 0)%Z eqn:Hrc.
  - apply Z.eqb_eq in Hrc. rewrite Hrc in Hrun.
    match type of Hrun with
    | _ = StepRepl.create_app_bundle h ?s =>
        change s with (built_state h start) in Hrun
    end.
    rewrite Hrun in *.
    split; [|split; [by apply exit_after_status|]].
    + rewrite (exit_after_zero_iff _ Hraises), Hstatus.
      split; [by intros [? ?] | by intros (_ & ? & ?)].
    + rewrite exit_after_state, Hlog. split; [done|]. intros _.
      change (log start) with (@nil event). cbn [app].
      rewrite !elem_of_cons. auto.
  - apply Z.eqb_neq in Hrc. rewrite Hrun. cbn [exit_after fst snd].
    split; [split; [done | by intros [? _]]|]. split; [by right|].
    rewrite log_extend. change (log start) with (@nil event). cbn [app].
    split; [|done]. rewrite !elem_of_cons.
    intros [H | [H | H]]; [|done|by apply elem_of_nil in H].
    exfalso. injection H as H. discriminate H.
Qed.

Lemma X7_macos_target_needs_build_and_bundle_witness :
  exit_status (StepRepl.execute linux_host ["publish.py"; "--target"; "osx-x64"]
                 (∅ : dir)).1 = 1.
Proof.
  destruct (X7_macos_target_needs_build_and_bundle linux_host ∅
              "publish.py" "--target" "osx-x64" [] eq_refl eq_refl eq_refl)
    as (Hiff & [H0 | H1] & _).
  - apply Hiff in H0 as (_ & Hcopy & _). vm_compute in Hcopy. discriminate Hcopy.
  - exact H1.
Defined.


(** ** AvaloniaRepl/publish.py *)

(** The loop of the script over any list of platforms: the events it adds
    are announcements and builds, in the order of the list, the loop going on
    only after a return code 0. *)
Lemma avalonia_loop h l : ∀ st,
  let parent := path_dirname h (getcwd h) in
  let r := for_each l (λ platform,
             print ("Publishing for " +:+ platform +:+ "...");;
             subprocess_run h (AvaloniaRepl.build_command platform) parent) st in
  ∃ codes evs,
    log r.2 = log st ++ evs ∧
    forallb print_or_run evs = true ∧
    builds evs = zip_with (λ p rc, (AvaloniaRepl.build_command p, parent, rc)) l codes ∧
    (length codes ≤ length l)%nat ∧
    (∀ i rc, codes !! i = Some rc → (S i < length codes)%nat → rc = 0) ∧
    match r.1 with
    | Ok _ => codes = replicate (length l) 0
    | Raised e =>
        ∃ rc p, last codes = Some rc ∧ rc ≠ 0 ∧
                l !! (length codes - 1)%nat = Some p ∧
                e = CalledProcessError rc (AvaloniaRepl.build_command p) ∧
                last evs = Some (Run (AvaloniaRepl.build_command p) parent rc)
    end.
Proof.
  induction l as [|p l IH]; intros st parent; cbn [for_each].
  - exists [], []. cbn. rewrite app_nil_r. repeat split; try done.
  - rewrite bind_run, bind_run, print_run. cbv beta iota.
    rewrite subprocess_run_run. cbv zeta. rewrite fs_extend.
    set (b := run_process h (AvaloniaRepl.build_command p) parent (fs st)).
    destruct (b.1 =? 0)%Z eqn:Hrc; cbv beta iota; rewrite extend_extend.
    + apply Z.eqb_eq in Hrc.
      destruct (IH (extend st ([Print ("Publishing for " +:+ p +:+ "...")] ++
                               [Run (AvaloniaRepl.build_command p) parent b.1]) b.2))
        as (codes & evs & Hlog & Hkinds & Hbuilds & Hlen & Hzero & Hres).
      fold parent in Hlog, Hres |- *. rewrite log_extend in Hlog.
      exists (b.1 :: codes), (Print ("Publishing for " +:+ p +:+ "...")
                            :: Run (AvaloniaRepl.build_command p) parent b.1 :: evs).
      split; [by rewrite Hlog, <- app_assoc|].
      split; [done|].
      split; [by rewrite builds_print, builds_run, Hbuilds|].
      split; [cbn; lia|].
      split.
      { intros [|i] rc Hi Hlt; cbn in Hi, Hlt; [congruence|].
        eapply Hzero; [done|lia]. }
      destruct (for_each l _ _).1 as [[]|e].
      * by rewrite Hres, Hrc.
      * destruct Hres as (rc & q & Hlast & Hne & Hq & -> & Hev).
        exists rc, q. destruct codes as [|c codes]; [done|].
        split; [done|]. split; [done|].
        split.
        { replace (length (b.1 :: c :: codes) - 1)%nat
            with (S (length (c :: codes) - 1)) by (cbn; lia).
          exact Hq. }
        split; [done|]. by rewrite !last_cons, Hev.
    + apply Z.eqb_neq in Hrc.
      exists [b.1], [Print ("Publishing for " +:+ p +:+ "...");
                    Run (AvaloniaRepl.build_command p) parent b.1].
      cbn [fst snd]. rewrite log_extend.
      split; [done|]. split; [done|]. split; [by destruct l|]. split; [cbn; lia|].
      split; [intros i rc _ Hlt; cbn in Hlt; lia|].
      by exists b.1, p.
Qed.

(** X12.  AvaloniaRepl/publish.py starts the build for its platforms in the
    listed order (win-x64, linux-x64, osx-arm64, osx-x64), each at most
    once, in the parent of the working directory.  Every build but the last
    one started has returned 0; a non-zero return code ends the run at once
    with a [CalledProcessError] that carries it, exit status 1, the failed
    build being the last event. *)
Theorem X12_avalonia_builds_in_order_until_failure h argv root :
  let r := AvaloniaRepl.execute h argv root in
  let parent := path_dirname h (getcwd h) in
  AvaloniaRepl.platforms = ["win-x64"; "linux-x64"; "osx-arm64"; "osx-x64"] ∧
  ∃ codes : list Z,
    (0 < length codes ≤ 4)%nat ∧
    builds (log r.2) =
      zip_with (λ p rc, (AvaloniaRepl.build_command p, parent, rc))
               AvaloniaRepl.platforms codes ∧
    (∀ i rc, codes !! i = Some rc → (S i < length codes)%nat → rc = 0) ∧
    ((length codes < 4)%nat → ∃ rc, last codes = Some rc ∧ rc ≠ 0) ∧
    (∀ rc, last codes = Some rc → rc ≠ 0 →
       ∃ p, AvaloniaRepl.platforms !! (length codes - 1)%nat = Some p ∧
            r.1 = Raised (CalledProcessError rc (AvaloniaRepl.build_command p)) ∧
            last (log r.2) = Some (Run (AvaloniaRepl.build_command p) parent rc) ∧
            exit_status r.1 = 1).
Proof.
  intros r parent. subst r. split; [done|].
  unfold AvaloniaRepl.execute, AvaloniaRepl.main. rewrite bind_run.
  destruct (avalonia_loop h AvaloniaRepl.platforms (initial root))
    as (codes & evs & Hlog & Hkinds & Hbuilds & Hlen & Hzero & Hres).
  fold parent in Hlog, Hbuilds, Hres |- *.
  change (log (initial root)) with (@nil event) in Hlog. cbn [app] in Hlog.
  destruct (for_each AvaloniaRepl.platforms _ (initial root)) as [[[]|e] st] eqn:Hloop;
    cbn [fst snd] in *.
  - subst codes. exists [0; 0; 0; 0]. rewrite print_run. cbn [fst snd].
    rewrite log_extend, Hlog, builds_app, Hbuilds, app_nil_r.
    split; [cbn; lia|]. split; [done|]. split.
    { intros i rc Hi _. apply list_elem_of_lookup_2 in Hi.
      rewrite !elem_of_cons in Hi. destruct Hi as [?|[?|[?|[?|Hi]]]]; try done.
      by apply elem_of_nil in Hi. }
    split; [cbn; lia|]. intros rc [= <-] Hne. done.
  - destruct Hres as (rc & p & Hlast & Hne & Hp & -> & Hev).
    exists codes. rewrite Hlog.
    split; [split; [destruct codes; [done|cbn; lia] | done]|].
    split; [done|]. split; [done|].
    split; [intros _; by exists rc|].
    intros rc' Hlast' Hne'. rewrite Hlast in Hlast'. injection Hlast' as <-.
    by exists p.
Qed.

(** X13.  AvaloniaRepl/publish.py only prints and builds: it opens no folder
    and copies no tree.  It ends with status 0 exactly when all four builds
    returned 0, and exactly then its last line is
    [Publish completed for all platforms.]; otherwise the status is 1. *)
Theorem X13_avalonia_completion h argv root :
  let r := AvaloniaRepl.execute h argv root in
  let parent := path_dirname h (getcwd h) in
  let all_ok :=
    builds (log r.2) =
      map (λ p, (AvaloniaRepl.build_command p, parent, 0)) AvaloniaRepl.platforms in
  forallb print_or_run (log r.2) = true ∧
  (exit_status r.1 = 0 ∨ exit_status r.1 = 1) ∧
  (exit_status r.1 = 0 ↔ all_ok) ∧
  (last (log r.2) = Some (Print "Publish completed for all platforms.") ↔ all_ok).
Proof.
  intros r parent all_ok. subst r all_ok.
  unfold AvaloniaRepl.execute, AvaloniaRepl.main. rewrite bind_run.
  destruct (avalonia_loop h AvaloniaRepl.platforms (initial root))
    as (codes & evs & Hlog & Hkinds & Hbuilds & Hlen & Hzero & Hres).
  fold parent in Hlog, Hbuilds, Hres |- *.
  change (log (initial root)) with (@nil event) in Hlog. cbn [app] in Hlog.
  destruct (for_each AvaloniaRepl.platforms _ (initial root)) as [[[]|e] st] eqn:Hloop;
    cbn [fst snd] in *.
  - subst codes. rewrite print_run. cbn [fst snd].
    rewrite log_extend, Hlog, builds_app, Hbuilds, app_nil_r.
    split; [by rewrite forallb_app, Hkinds|]. split; [by left|].
    split; [done|]. by rewrite last_app.
  - destruct Hres as (rc & p & Hlast & Hne & Hp & -> & Hev).
    rewrite Hlog, Hbuilds. split; [done|]. split; [by right|].
    assert (zip_with (λ p rc, (AvaloniaRepl.build_command p, parent, rc))
              AvaloniaRepl.platforms codes
            ≠ map (λ p, (AvaloniaRepl.build_command p, parent, 0))
                AvaloniaRepl.platforms) as Hdiff.
    { intros Heq. apply Hne.
      assert (codes !! (length codes - 1)%nat = Some rc) as Hnth
        by (by rewrite Nat.sub_1_r, <- last_lookup).
      apply (f_equal (λ l, l !! (length codes - 1)%nat)) in Heq.
      rewrite lookup_zip_with, Hp, list_lookup_fmap, Hp in Heq. cbn in Heq.
      rewrite Hnth in Heq. cbn in Heq. congruence. }
    split; [by split|]. split; [|done].
    rewrite Hev. done.
Qed.


(** ** The working directory of the build at the top of the file system *)

Lemma posixpath_dirname_top n :
  has_sep n = false → posixpath_dirname ("/" +:+ n) = "/".
Proof.
  intros Hn. unfold posixpath_dirname.
  change ("/" +:+ n) with (String "/" n). cbn [upto_last_sep is_sep].
  change (Ascii.eqb "/" "/") with true. cbv iota.
  by rewrite upto_last_sep_no_sep.
Qed.

(** X14.  On a POSIX host whose working directory is the root or lies
    directly below it ([/name]), [os.path.dirname(os.getcwd())] is the root:
    the one build of a single-platform run is started in [/], which for the
    root itself is no parent at all. *)
Theorem X14_build_directory_at_the_root h root prog flag p rest n :
  path_dirname h = posixpath_dirname →
  getcwd h = "/" +:+ n →
  has_sep n = false →
  StepRepl.is_target_flag flag = true →
  str_in p StepRepl.platforms = true →
  let r := StepRepl.execute h (prog :: flag :: p :: rest) root in
  ∃ rc, builds (log r.2) = [(StepRepl.build_command p, "/", rc)].
Proof.
  intros Hdirname Hcwd Hn Hflag Hp r. subst r.
  unfold StepRepl.execute. rewrite main_target by done.
  assert (String.eqb p "all" = false) as Hall
    by (apply String.eqb_neq; intros ->; done).
  rewrite Hp, Hall. cbn [negb andb]. rewrite exit_after_state.
  pose proof (do_build_log h (with_platform p (initial root))) as Hb.
  cbv zeta in Hb. destruct Hb as (tail & Hlog & Hnone & _).
  change (current_platform (with_platform p (initial root))) with p in Hlog.
  change (log (with_platform p (initial root))) with (@nil event) in Hlog.
  rewrite Hdirname, Hcwd, (posixpath_dirname_top _ Hn) in Hlog.
  eexists. rewrite Hlog. cbn [app]. by rewrite builds_print, builds_run, Hnone.
Qed.

Lemma X14_build_directory_at_the_root_witness :
  ∃ rc,
    builds (log (StepRepl.execute
                   {| sys_platform := "linux"; getcwd := "/StepRepl";
                      path_dirname := posixpath_dirname;
                      path_join := λ a b, a +:+ "/" +:+ b;
                      run_process := λ _ _ root, (0, root);
                      run_shell := λ _ root, (0, root) |}
                   ["publish.py"; "--target"; "win-x64"] ∅).2)
    = [(StepRepl.build_command "win-x64", "/", rc)].
Proof.
  apply (X14_build_directory_at_the_root _ ∅ "publish.py" "--target" "win-x64" []
           "StepRepl"); reflexivity.
Defined.
